(** * Storefront catalog/cart orchestration: gateway, cart hooks, product details

    A shallow embedding of [src/lib/ecom/api.ts] (the Catalog/Cart Gateway
    built by [createApi]), [src/lib/ecom/hooks.ts] (the cart cache and
    mutation coordinator) and the [useProductDetails] hook, with the
    properties of the storefront specification stated and proved over it.

    Conventions of the embedding:
    - an [async] function is a computation over the state of the remote
      platform that either resolves to a value or rejects with the thrown
      value; the platform answers a request at the moment it is issued;
    - JavaScript numbers that count things (quantities, limits) are
      integers [Z]; prices are rationals [Q] and are never computed with;
    - [T | undefined] is [option T]; a JavaScript object used as a
      dictionary (own, ordinary string keys) is a [gmap string]. *)

From Stdlib Require Import ZArith QArith Lia.
From stdpp Require Import base option list strings pretty gmap.

Close Scope Q_scope.
Local Open Scope Z_scope.
Local Open Scope string_scope.
Local Open Scope list_scope.

(** ** Types of the platform SDK, as far as the code reads them *)

Module products.
Record Choice := { value : option string; description : option string }.

Record ProductOption :=
  { name : option string; choices : option (list Choice) }.

Record PriceData := { price : option Q }.

Record Variant := { variant_id : option string }.   (* the [_id] of a variant *)

Record Product :=
  { _id : string;               (* read as [product._id!] *)
    slug : option string;
    productOptions : option (list ProductOption);
    manageVariants : option bool;
    priceData : option PriceData;
    collectionIds : list string }.
End products.

Module collections.
Record Collection :=
  { _id : option string;
    slug : string }.            (* read as [category.slug!] *)
End collections.

Module orders.
Record Order := { _id : option string }.
End orders.

(** [AddToCartOptions] of [./types]: either [{ variantId }] or
    [{ options }], the two shapes [handleAddToCart] builds. *)
Inductive AddToCartOptions :=
| VariantIdOption (variantId : string)
| ChoicesOption (options : gmap string string).

Module currentCart.
Inductive ChannelType := WEB.

Record CatalogReference :=
  { catalogItemId : option string;
    appId : option string;
    options : option AddToCartOptions }.

Record LineItem :=
  { _id : option string;
    quantity : option Z;
    catalogReference : option CatalogReference }.

Record Cart := { lineItems : list LineItem }.

Record CartTotals := { subtotal : option Q; total : option Q }.
End currentCart.

Module redirects.
Record RedirectSession := { fullUrl : option string }.

Record RedirectSessionRequest :=
  { checkoutId : option string;
    postFlowUrl : string;
    thankYouPageUrl : string }.
End redirects.

(** The product query builder.  Every builder method returns a new builder;
    a query is the sequence of builder calls made on [queryProducts()]. *)
Inductive QueryOp :=
| HasSome (field : string) (values : list (option string))
| Eq (field : string) (v : string)
| Ge (field : string) (v : Q)
| Le (field : string) (v : Q)
| AscendingBy (field : string)
| DescendingBy (field : string)
| Skip (n : Z)
| Limit (n : Z).

Definition ProductsQuery := list QueryOp.

Definition queryProducts : ProductsQuery := [].

Record ProductsQueryResult :=
  { items : list products.Product; totalCount : option Z }.

(** ** [./types]: error codes and tagged responses *)

Inductive EcomApiErrorCodes :=
| GetProductsFailure
| ProductNotFound
| GetProductFailure
| GetCartFailure
| GetCartTotalsFailure
| UpdateCartItemQuantityFailure
| RemoveCartItemFailure
| AddCartItemFailure
| CreateCheckoutFailure
| CreateCheckoutRedirectSessionFailure
| GetAllCategoriesFailure
| CategoryNotFound
| GetCategoryFailure
| OrderNotFound
| GetOrderFailure.

#[global] Instance EcomApiErrorCodes_eq_dec : EqDecision EcomApiErrorCodes.
Proof. solve_decision. Defined.

Record EcomApiError := { code : EcomApiErrorCodes; message : string }.

Inductive EcomAPIResponse (T : Type) :=
| SuccessResponse (body : T)        (* { status: 'success', body } *)
| FailureResponse (error : EcomApiError). (* { status: 'failure', error } *)
Arguments SuccessResponse {T} body.
Arguments FailureResponse {T} error.

Definition failureResponse {T} (c : EcomApiErrorCodes) (msg : string)
  : EcomAPIResponse T :=
  FailureResponse {| code := c; message := msg |}.

Definition successResponse {T} (body : T) : EcomAPIResponse T :=
  SuccessResponse body.

(** ** Thrown values and asynchronous computations *)

(** What a [throw] (or a rejected promise) can carry in this code base. *)
Inductive Exn :=
| ErrorObject (msg : string)
    (* an [Error] instance: [new Error(msg)] or one raised by the platform *)
| SdkErrorObject (applicationErrorCode : Z) (msg : string)
    (* a platform error with [details.applicationError.code] *)
| ApiErrorObject (e : EcomApiError)
    (* the [error] of a failure response, thrown as it is *)
| OtherValue (repr : string).
    (* anything else *)

(** Modelled from the spec: [isEcomSDKError] of [./types] is not among the
    sources.  It is the type guard that lets [api.ts] read
    [e.details.applicationError.code], the code section 4.1 compares with
    404; the errors it accepts are the [SdkErrorObject]s. *)
Definition isEcomSDKError (e : Exn) : bool :=
  match e with SdkErrorObject _ _ => true | _ => false end.

Definition applicationErrorCode_of (e : Exn) : option Z :=
  match e with SdkErrorObject c _ => Some c | _ => None end.

Inductive Outcome (A : Type) :=
| Resolved (a : A)
| Rejected (e : Exn).
Arguments Resolved {A} a.
Arguments Rejected {A} e.

(** An asynchronous computation over a state [S]. *)
Definition Async (S A : Type) : Type := S → Outcome A * S.

Definition ret {S A} (a : A) : Async S A := λ s, (Resolved a, s).

Definition throw {S A} (e : Exn) : Async S A := λ s, (Rejected e, s).

Definition bind {S A B} (m : Async S A) (k : A → Async S B) : Async S B :=
  λ s, match m s with
       | (Resolved a, s') => k a s'
       | (Rejected e, s') => (Rejected e, s')
       end.

(** [try { body } catch (e) { handler }] *)
Definition try_catch {S A} (body : Async S A) (handler : Exn → Async S A)
  : Async S A :=
  λ s, match body s with
       | (Resolved a, s') => (Resolved a, s')
       | (Rejected e, s') => handler e s'
       end.

(** [Promise.all([a, b])] where both requests are issued up front: the
    second is issued even if the first one fails. *)
Definition promise_all2 {S A B} (a : Async S A) (b : Async S B)
  : Async S (A * B) :=
  λ s, let '(ra, s1) := a s in
       let '(rb, s2) := b s1 in
       match ra, rb with
       | Resolved x, Resolved y => (Resolved (x, y), s2)
       | Rejected e, _ => (Rejected e, s2)
       | _, Rejected e => (Rejected e, s2)
       end.

Declare Scope async_scope.
Delimit Scope async_scope with async.
Notation "'let*' x ':=' m 'in' k" := (bind m (λ x, k))
  (at level 10, x name, m at level 100, k at level 200) : async_scope.
Local Open Scope async_scope.

(** ** The platform client

    [WixApiClient] as [createApi] uses it: one field per platform call made
    in [api.ts].  [S] is the state of the remote platform; each call may
    reject. *)
Record WixApiClient (S : Type) :=
  { products_find : ProductsQuery → Async S ProductsQueryResult;
      (* [wixClient.products.queryProducts()...find()] *)
    collections_getCollectionBySlug :
      string → Async S (option collections.Collection);
      (* the [.collection] of the response *)
    collections_queryCollections_find :
      Async S (list collections.Collection);
      (* the [.items] of the response *)
    currentCart_getCurrentCart : Async S currentCart.Cart;
    currentCart_estimateCurrentCartTotals : Async S currentCart.CartTotals;
    currentCart_updateCurrentCartLineItemQuantity :
      list (option string * Z) → Async S (option currentCart.Cart);
      (* argument: [{ _id, quantity }] entries; result: [.cart] *)
    currentCart_removeLineItemsFromCurrentCart :
      list string → Async S (option currentCart.Cart);
    currentCart_addToCurrentCart :
      list (currentCart.CatalogReference * Z)
      → Async S (option currentCart.Cart);
      (* argument: [{ catalogReference, quantity }] entries *)
    currentCart_createCheckoutFromCurrentCart :
      currentCart.ChannelType → Async S (option string);
      (* the [.checkoutId] of the response *)
    redirects_createRedirectSession :
      redirects.RedirectSessionRequest
      → Async S (option redirects.RedirectSession);
      (* the [.redirectSession] of the response *)
    orders_getOrder : string → Async S (option orders.Order) }.
Arguments products_find {S}.
Arguments collections_getCollectionBySlug {S}.
Arguments collections_queryCollections_find {S}.
Arguments currentCart_getCurrentCart {S}.
Arguments currentCart_estimateCurrentCartTotals {S}.
Arguments currentCart_updateCurrentCartLineItemQuantity {S}.
Arguments currentCart_removeLineItemsFromCurrentCart {S}.
Arguments currentCart_addToCurrentCart {S}.
Arguments currentCart_createCheckoutFromCurrentCart {S}.
Arguments redirects_createRedirectSession {S}.
Arguments orders_getOrder {S}.

(** ** The [EcomAPI] interface of [./types], as [createApi] implements it *)

Record ProductsPage :=
  { page_items : list products.Product; page_totalCount : Z }.

Record FeaturedProducts :=
  { category : collections.Collection;
    featured_items : list products.Product }.

Record CheckoutInfo := { checkoutUrl : string }.

Record PriceBounds := { lowest : Q; highest : Q }.

Section Interface.
Context {S : Type}.
(** The filter and sort descriptions of [./product-filters] and
    [./product-sorting] are opaque to [api.ts]. *)
Context {Filters SortBy : Type}.

(** The optional second argument of [getProductsByCategory]. *)
Record ByCategoryParams :=
  { skip : option Z;
    limit : option Z;
    filters : option Filters;
    sortBy : option SortBy }.

Record EcomAPI :=
  { getProducts : option Z → Async S (EcomAPIResponse (list products.Product));
    getProductsByCategory :
      string → ByCategoryParams → Async S (EcomAPIResponse ProductsPage);
    getFeaturedProducts :
      string → Z → Async S (EcomAPIResponse FeaturedProducts);
    getPromotedProducts : Async S (EcomAPIResponse (list products.Product));
    getProductBySlug : string → Async S (EcomAPIResponse products.Product);
    getCart : Async S (EcomAPIResponse currentCart.Cart);
    getCartTotals : Async S (EcomAPIResponse currentCart.CartTotals);
    updateCartItemQuantity :
      option string → Z → Async S (EcomAPIResponse currentCart.Cart);
    removeItemFromCart : string → Async S (EcomAPIResponse currentCart.Cart);
    addToCart :
      string → Z → option AddToCartOptions
      → Async S (EcomAPIResponse currentCart.Cart);
    checkout : Async S (EcomAPIResponse CheckoutInfo);
    getAllCategories :
      Async S (EcomAPIResponse (list collections.Collection));
    getCategoryBySlug :
      string → Async S (EcomAPIResponse collections.Collection);
    getOrder : string → Async S (EcomAPIResponse orders.Order);
    getProductPriceBounds : string → Async S (EcomAPIResponse PriceBounds) }.
End Interface.
Arguments ByCategoryParams : clear implicits.
Arguments EcomAPI : clear implicits.

(** ** [createApi] ([src/lib/ecom/api.ts]) *)

(** JavaScript truthiness of an optional string: [undefined] and the empty
    string are falsy. *)
Definition truthy (x : option string) : bool :=
  match x with
  | None => false
  | Some s => if decide (s = "") then false else true
  end.

Section Gateway.
Context {S Filters SortBy : Type}.

(** Imports of [api.ts] whose sources are elsewhere: [getErrorMessage]
    of [~/lib/utils], the query decorators of [./product-filters] and
    [./product-sorting], the constant of [./constants], and the browser's
    [window.location.origin]. *)
Variable getErrorMessage : Exn → string.
Variable getFilteredProductsQuery : ProductsQuery → Filters → ProductsQuery.
Variable getSortedProductsQuery : ProductsQuery → SortBy → ProductsQuery.
Variable WIX_STORES_APP_ID : string.
Variable origin : string.

Variable wixClient : WixApiClient S.

Abbreviation Response T := (Async S (EcomAPIResponse T)).

Definition api_getProducts (limit : option Z)
  : Response (list products.Product) :=
  try_catch
    (let* response :=
       wixClient.(products_find)
         (queryProducts ++ [Limit (default 100 limit)]) in
     ret (successResponse response.(items)))
    (λ e, ret (failureResponse GetProductsFailure (getErrorMessage e))).

Definition api_getProductsByCategory (categorySlug : string)
    (params : ByCategoryParams Filters SortBy) : Response ProductsPage :=
  try_catch
    (let* category :=
       wixClient.(collections_getCollectionBySlug) categorySlug in
     match category with
     | None => throw (ErrorObject "Category not found")
     | Some category =>
         let query :=
           queryProducts
             ++ [HasSome "collectionIds" [category.(collections._id)]] in
         let query :=
           match params.(filters) with
           | Some f => getFilteredProductsQuery query f
           | None => query
           end in
         let query :=
           match params.(sortBy) with
           | Some o => getSortedProductsQuery query o
           | None => query
           end in
         let* found :=
           wixClient.(products_find)
             (query ++ [Skip (default 0 params.(skip))]
                    ++ [Limit (default 100 params.(limit))]) in
         ret (successResponse
                {| page_items := found.(items);
                   page_totalCount := default 0 found.(totalCount) |})
     end)
    (λ e, ret (failureResponse GetProductsFailure (getErrorMessage e))).

Definition api_getCategoryBySlug (slug : string)
  : Response collections.Collection :=
  try_catch
    (let* category := wixClient.(collections_getCollectionBySlug) slug in
     match category with
     | None => ret (failureResponse CategoryNotFound "Category not found")
     | Some category => ret (successResponse category)
     end)
    (λ e,
       if isEcomSDKError e
          && bool_decide (applicationErrorCode_of e = Some 404)
       then ret (failureResponse CategoryNotFound "Category not found")
       else ret (failureResponse GetCategoryFailure (getErrorMessage e))).

(** [getFeaturedProducts] reaches its siblings through [this]; the two
    methods of [this] it calls are its first two arguments. *)
Definition api_getFeaturedProducts
    (this_getCategoryBySlug : string → Response collections.Collection)
    (this_getProductsByCategory :
       string → ByCategoryParams Filters SortBy → Response ProductsPage)
    (categorySlug : string) (count : Z) : Response FeaturedProducts :=
  let* response := this_getCategoryBySlug categorySlug in
  let* category :=
    match response with
    | SuccessResponse body => ret body
    | FailureResponse error =>
        if decide (error.(code) = CategoryNotFound) then
          let* response := this_getCategoryBySlug "all-products" in
          match response with
          | SuccessResponse body => ret body
          | FailureResponse _ => throw (ApiErrorObject error)
          end
        else throw (ApiErrorObject error)
    end in
  let* productsResponse :=
    this_getProductsByCategory category.(collections.slug)
      {| skip := None; limit := Some count;
         filters := None; sortBy := None |} in
  match productsResponse with
  | FailureResponse error => throw (ApiErrorObject error)
  | SuccessResponse body =>
      ret (successResponse
             {| category := category;
                featured_items := body.(page_items) |})
  end.

Definition api_getPromotedProducts : Response (list products.Product) :=
  try_catch
    (let* response :=
       wixClient.(products_find) (queryProducts ++ [Limit 4]) in
     ret (successResponse response.(items)))
    (λ e, ret (failureResponse GetProductsFailure (getErrorMessage e))).

Definition api_getProductBySlug (slug : string)
  : Response products.Product :=
  try_catch
    (let* response :=
       wixClient.(products_find)
         (queryProducts ++ [Eq "slug" slug] ++ [Limit 1]) in
     match head response.(items) with
     | None => ret (failureResponse ProductNotFound "Product not found")
     | Some product => ret (successResponse product)
     end)
    (λ e, ret (failureResponse GetProductFailure (getErrorMessage e))).

Definition api_getCart : Response currentCart.Cart :=
  try_catch
    (let* cart := wixClient.(currentCart_getCurrentCart) in
     ret (successResponse cart))
    (λ e, ret (failureResponse GetCartFailure (getErrorMessage e))).

Definition api_getCartTotals : Response currentCart.CartTotals :=
  try_catch
    (let* cartTotals := wixClient.(currentCart_estimateCurrentCartTotals) in
     ret (successResponse cartTotals))
    (λ e, ret (failureResponse GetCartTotalsFailure (getErrorMessage e))).

Definition api_updateCartItemQuantity (id : option string) (quantity : Z)
  : Response currentCart.Cart :=
  try_catch
    (let* result :=
       wixClient.(currentCart_updateCurrentCartLineItemQuantity)
         [(if truthy id then id else None, quantity)] in
     match result with
     | None => throw (ErrorObject "Failed to update cart item quantity")
     | Some cart => ret (successResponse cart)
     end)
    (λ e, ret (failureResponse UpdateCartItemQuantityFailure
                 (getErrorMessage e))).

Definition api_removeItemFromCart (id : string)
  : Response currentCart.Cart :=
  try_catch
    (let* result :=
       wixClient.(currentCart_removeLineItemsFromCurrentCart) [id] in
     match result with
     | None => throw (ErrorObject "Failed to remove cart item")
     | Some cart => ret (successResponse cart)
     end)
    (λ e, ret (failureResponse RemoveCartItemFailure (getErrorMessage e))).

Definition api_addToCart (id : string) (quantity : Z)
    (options : option AddToCartOptions) : Response currentCart.Cart :=
  try_catch
    (let* result :=
       wixClient.(currentCart_addToCurrentCart)
         [({| currentCart.catalogItemId := Some id;
              currentCart.appId := Some WIX_STORES_APP_ID;
              currentCart.options := options |}, quantity)] in
     match result with
     | None => throw (ErrorObject "Failed to add item to cart")
     | Some cart => ret (successResponse cart)
     end)
    (λ e, ret (failureResponse AddCartItemFailure (getErrorMessage e))).

Definition api_checkout : Response CheckoutInfo :=
  let* phase1 :=
    try_catch
      (let* checkoutId :=
         wixClient.(currentCart_createCheckoutFromCurrentCart)
           currentCart.WEB in
       ret (inl checkoutId))
      (λ e, ret (inr (failureResponse CreateCheckoutFailure
                        (getErrorMessage e)))) in
  match phase1 with
  | inr failure => ret failure
  | inl checkoutId =>
      try_catch
        (let* redirectSession :=
           wixClient.(redirects_createRedirectSession)
             {| redirects.checkoutId := checkoutId;
                redirects.postFlowUrl := origin;
                redirects.thankYouPageUrl := origin +:+ "/thank-you" |} in
         match redirectSession ≫= redirects.fullUrl with
         | Some url =>
             if truthy (Some url)
             then ret (successResponse {| checkoutUrl := url |})
             else throw (ErrorObject "Missing redirect session url")
         | None => throw (ErrorObject "Missing redirect session url")
         end)
        (λ e, ret (failureResponse CreateCheckoutRedirectSessionFailure
                     (getErrorMessage e)))
  end.

Definition api_getAllCategories
  : Response (list collections.Collection) :=
  try_catch
    (let* categories := wixClient.(collections_queryCollections_find) in
     ret (successResponse categories))
    (λ e, ret (failureResponse GetAllCategoriesFailure
                 (getErrorMessage e))).

Definition api_getOrder (id : string) : Response orders.Order :=
  try_catch
    (let* order := wixClient.(orders_getOrder) id in
     match order with
     | None => ret (failureResponse OrderNotFound "Order not found")
     | Some order => ret (successResponse order)
     end)
    (λ e,
       if isEcomSDKError e
          && bool_decide (applicationErrorCode_of e = Some 404)
       then ret (failureResponse OrderNotFound "Order not found")
       else ret (failureResponse GetOrderFailure (getErrorMessage e))).

(** [items[0]?.priceData?.price ?? 0] *)
Definition boundaryPrice (found : ProductsQueryResult) : Q :=
  let priceData := head found.(items) ≫= products.priceData in
  default 0%Q (priceData ≫= products.price).

Definition api_getProductPriceBounds (categorySlug : string)
  : Response PriceBounds :=
  try_catch
    (let* category :=
       wixClient.(collections_getCollectionBySlug) categorySlug in
     match category with
     | None => throw (ErrorObject "Category not found")
     | Some category =>
         let query :=
           queryProducts
             ++ [HasSome "collectionIds" [category.(collections._id)]] in
         let* both :=
           promise_all2
             (wixClient.(products_find)
                (query ++ [AscendingBy "price"] ++ [Limit 1]))
             (wixClient.(products_find)
                (query ++ [DescendingBy "price"] ++ [Limit 1])) in
         let ascendingPrice := both.1 in
         let descendingPrice := both.2 in
         ret (successResponse
                {| lowest := boundaryPrice ascendingPrice;
                   highest := boundaryPrice descendingPrice |})
     end)
    (λ e, ret (failureResponse GetProductsFailure (getErrorMessage e))).

(** The object [createApi] returns; inside [getFeaturedProducts], [this] is
    this object. *)
Definition createApi : EcomAPI S Filters SortBy :=
  {| getProducts := api_getProducts;
     getProductsByCategory := api_getProductsByCategory;
     getFeaturedProducts :=
       api_getFeaturedProducts api_getCategoryBySlug
         api_getProductsByCategory;
     getPromotedProducts := api_getPromotedProducts;
     getProductBySlug := api_getProductBySlug;
     getCart := api_getCart;
     getCartTotals := api_getCartTotals;
     updateCartItemQuantity := api_updateCartItemQuantity;
     removeItemFromCart := api_removeItemFromCart;
     addToCart := api_addToCart;
     checkout := api_checkout;
     getAllCategories := api_getAllCategories;
     getCategoryBySlug := api_getCategoryBySlug;
     getOrder := api_getOrder;
     getProductPriceBounds := api_getProductPriceBounds |}.

End Gateway.

(** ** Gateway calls as data

    One constructor per operation of [EcomAPI], carrying its arguments.
    [perform] invokes the operation a descriptor stands for; the callers of
    the Gateway go through it so that every call they issue can be
    recorded. *)
Section Calls.
Context {S Filters SortBy : Type}.

Inductive GatewayCall :=
| CallGetProducts (limit : option Z)
| CallGetProductsByCategory (categorySlug : string)
    (params : ByCategoryParams Filters SortBy)
| CallGetFeaturedProducts (categorySlug : string) (count : Z)
| CallGetPromotedProducts
| CallGetProductBySlug (slug : string)
| CallGetCart
| CallGetCartTotals
| CallUpdateCartItemQuantity (id : option string) (quantity : Z)
| CallRemoveItemFromCart (id : string)
| CallAddToCart (id : string) (quantity : Z)
    (options : option AddToCartOptions)
| CallCheckout
| CallGetAllCategories
| CallGetCategoryBySlug (slug : string)
| CallGetOrder (id : string)
| CallGetProductPriceBounds (categorySlug : string).

Definition Body (c : GatewayCall) : Type :=
  match c with
  | CallGetProducts _ => list products.Product
  | CallGetProductsByCategory _ _ => ProductsPage
  | CallGetFeaturedProducts _ _ => FeaturedProducts
  | CallGetPromotedProducts => list products.Product
  | CallGetProductBySlug _ => products.Product
  | CallGetCart => currentCart.Cart
  | CallGetCartTotals => currentCart.CartTotals
  | CallUpdateCartItemQuantity _ _ => currentCart.Cart
  | CallRemoveItemFromCart _ => currentCart.Cart
  | CallAddToCart _ _ _ => currentCart.Cart
  | CallCheckout => CheckoutInfo
  | CallGetAllCategories => list collections.Collection
  | CallGetCategoryBySlug _ => collections.Collection
  | CallGetOrder _ => orders.Order
  | CallGetProductPriceBounds _ => PriceBounds
  end.

Definition perform (api : EcomAPI S Filters SortBy) (c : GatewayCall)
  : Async S (EcomAPIResponse (Body c)) :=
  match c with
  | CallGetProducts limit => api.(getProducts) limit
  | CallGetProductsByCategory slug params =>
      api.(getProductsByCategory) slug params
  | CallGetFeaturedProducts slug count => api.(getFeaturedProducts) slug count
  | CallGetPromotedProducts => api.(getPromotedProducts)
  | CallGetProductBySlug slug => api.(getProductBySlug) slug
  | CallGetCart => api.(getCart)
  | CallGetCartTotals => api.(getCartTotals)
  | CallUpdateCartItemQuantity id quantity =>
      api.(updateCartItemQuantity) id quantity
  | CallRemoveItemFromCart id => api.(removeItemFromCart) id
  | CallAddToCart id quantity options => api.(addToCart) id quantity options
  | CallCheckout => api.(checkout)
  | CallGetAllCategories => api.(getAllCategories)
  | CallGetCategoryBySlug slug => api.(getCategoryBySlug) slug
  | CallGetOrder id => api.(getOrder) id
  | CallGetProductPriceBounds slug => api.(getProductPriceBounds) slug
  end.

Definition isGetFeaturedProducts (c : GatewayCall) : bool :=
  match c with CallGetFeaturedProducts _ _ => true | _ => false end.
End Calls.
Arguments GatewayCall : clear implicits.

(** The Gateway contract of the specification: on every call and from
    every platform state the operation resolves to a tagged response. *)
Definition never_throws {S Filters SortBy}
    (api : EcomAPI S Filters SortBy) : Prop :=
  ∀ (c : GatewayCall Filters SortBy) (s : S),
    ∃ r s', perform api c s = (Resolved r, s').

(** ** Platform calls as data, and a client that records them *)

Inductive PlatformCall :=
| PFind (q : ProductsQuery)
| PGetCollectionBySlug (slug : string)
| PQueryCollections
| PGetCurrentCart
| PEstimateCurrentCartTotals
| PUpdateCurrentCartLineItemQuantity (entries : list (option string * Z))
| PRemoveLineItemsFromCurrentCart (ids : list string)
| PAddToCurrentCart (entries : list (currentCart.CatalogReference * Z))
| PCreateCheckoutFromCurrentCart (channel : currentCart.ChannelType)
| PCreateRedirectSession (request : redirects.RedirectSessionRequest)
| PGetOrder (id : string).

(** [recorded p m] answers like [m] and appends [p] to the journal kept
    next to the platform state. *)
Definition recorded {S A} (p : PlatformCall) (m : Async S A)
  : Async (S * list PlatformCall) A :=
  λ '(s, journal), let '(r, s') := m s in (r, (s', journal ++ [p])).

Definition recording {S} (client : WixApiClient S)
  : WixApiClient (S * list PlatformCall) :=
  {| products_find q := recorded (PFind q) (client.(products_find) q);
     collections_getCollectionBySlug slug :=
       recorded (PGetCollectionBySlug slug)
         (client.(collections_getCollectionBySlug) slug);
     collections_queryCollections_find :=
       recorded PQueryCollections client.(collections_queryCollections_find);
     currentCart_getCurrentCart :=
       recorded PGetCurrentCart client.(currentCart_getCurrentCart);
     currentCart_estimateCurrentCartTotals :=
       recorded PEstimateCurrentCartTotals
         client.(currentCart_estimateCurrentCartTotals);
     currentCart_updateCurrentCartLineItemQuantity entries :=
       recorded (PUpdateCurrentCartLineItemQuantity entries)
         (client.(currentCart_updateCurrentCartLineItemQuantity) entries);
     currentCart_removeLineItemsFromCurrentCart ids :=
       recorded (PRemoveLineItemsFromCurrentCart ids)
         (client.(currentCart_removeLineItemsFromCurrentCart) ids);
     currentCart_addToCurrentCart entries :=
       recorded (PAddToCurrentCart entries)
         (client.(currentCart_addToCurrentCart) entries);
     currentCart_createCheckoutFromCurrentCart channel :=
       recorded (PCreateCheckoutFromCurrentCart channel)
         (client.(currentCart_createCheckoutFromCurrentCart) channel);
     redirects_createRedirectSession request :=
       recorded (PCreateRedirectSession request)
         (client.(redirects_createRedirectSession) request);
     orders_getOrder id := recorded (PGetOrder id) (client.(orders_getOrder) id)
  |}.

(** ** The cart hooks ([src/lib/ecom/hooks.ts]) *)

#[global] Instance AddToCartOptions_eq_dec : EqDecision AddToCartOptions.
Proof. solve_decision. Defined.

(** Modelled from the spec: [findItemIdInCart] of [~/lib/utils] is not
    among the sources.  Section 4.2: a cart line item matches a candidate
    add iff the catalog item id is equal and the variant id is equal (for a
    [{ variantId }] candidate) or the full set of option choices is equal
    (for an [{ options }] candidate).  The specification does not say what
    a candidate without options matches beyond the catalog item id. *)
Definition matchesCandidate (catalogItemId : string)
    (options : option AddToCartOptions) (it : currentCart.LineItem) : bool :=
  match it.(currentCart.catalogReference) with
  | None => false
  | Some reference =>
      bool_decide (reference.(currentCart.catalogItemId) = Some catalogItemId)
      && match options with
         | None => true
         | Some wanted =>
             bool_decide (reference.(currentCart.options) = Some wanted)
         end
  end.

(** Modelled from the spec: the line item [findItemIdInCart] returns is
    the first one of the cart that matches, [undefined] if none does. *)
Definition findItemIdInCart (cart : currentCart.Cart) (catalogItemId : string)
    (options : option AddToCartOptions) : option currentCart.LineItem :=
  List.find (matchesCandidate catalogItemId options)
    cart.(currentCart.lineItems).

Section Hooks.
Context {S Filters SortBy : Type}.

(** [useEcomAPI()] *)
Variable ecomApi : EcomAPI S Filters SortBy.

(** Client-side state of the storefront: the cache entry of key ['cart']
    ([useCartData().data]), the [updatingCartItemIds] state of [useCart]
    and the flag of the cart drawer ([useCartOpen]).  [issued] is a
    journal, not program state: every Gateway call made by a hook is
    appended to it together with [updatingCartItemIds] as it is at that
    moment.  State updates take effect in the order they are requested. *)
Record Client :=
  { cartData : option currentCart.Cart;
    updatingCartItemIds : list string;
    cartIsOpen : bool;
    issued : list (GatewayCall Filters SortBy * list string) }.

Definition setCartData (data : option currentCart.Cart) (cl : Client)
  : Client :=
  {| cartData := data;
     updatingCartItemIds := cl.(updatingCartItemIds);
     cartIsOpen := cl.(cartIsOpen);
     issued := cl.(issued) |}.

Definition setUpdatingCartItems (f : list string → list string)
    (cl : Client) : Client :=
  {| cartData := cl.(cartData);
     updatingCartItemIds := f cl.(updatingCartItemIds);
     cartIsOpen := cl.(cartIsOpen);
     issued := cl.(issued) |}.

Definition setIsOpen (b : bool) (cl : Client) : Client :=
  {| cartData := cl.(cartData);
     updatingCartItemIds := cl.(updatingCartItemIds);
     cartIsOpen := b;
     issued := cl.(issued) |}.

Definition journal (c : GatewayCall Filters SortBy) (cl : Client) : Client :=
  {| cartData := cl.(cartData);
     updatingCartItemIds := cl.(updatingCartItemIds);
     cartIsOpen := cl.(cartIsOpen);
     issued := cl.(issued) ++ [(c, cl.(updatingCartItemIds))] |}.

(** [await ecomApi.op(args)] *)
Definition gateway (c : GatewayCall Filters SortBy)
  : Async (Client * S) (EcomAPIResponse (Body c)) :=
  λ '(cl, s), let '(r, s') := perform ecomApi c s in (r, (journal c cl, s')).

(** The fetcher of [useCartData]. *)
Definition cartDataFetcher : Async (Client * S) currentCart.Cart :=
  let* response := gateway CallGetCart in
  match response with
  | FailureResponse error => throw (ApiErrorObject error)
  | SuccessResponse body => ret body
  end.

(** The fetcher of [useCartTotals]. *)
Definition cartTotalsFetcher : Async (Client * S) currentCart.CartTotals :=
  let* response := gateway CallGetCartTotals in
  match response with
  | FailureResponse error => throw (ApiErrorObject error)
  | SuccessResponse body => ret body
  end.

Record AddToCartArgs :=
  { arg_id : string;
    arg_quantity : Z;
    arg_options : option AddToCartOptions }.

(** The fetcher of [useAddToCart]; [cart] is [useCartData().data]. *)
Definition addToCartFetcher (cart : option currentCart.Cart)
    (arg : AddToCartArgs) : Async (Client * S) currentCart.Cart :=
  let itemInCart :=
    match cart with
    | Some cart => findItemIdInCart cart arg.(arg_id) arg.(arg_options)
    | None => None
    end in
  match itemInCart with
  | Some itemInCart =>
      let* updateCartItemQuantityResponse :=
        gateway
          (CallUpdateCartItemQuantity itemInCart.(currentCart._id)
             (default 0 itemInCart.(currentCart.quantity)
              + arg.(arg_quantity))) in
      match updateCartItemQuantityResponse with
      | FailureResponse error => throw (ApiErrorObject error)
      | SuccessResponse body => ret body
      end
  | None =>
      let* addToCartResponse :=
        gateway
          (CallAddToCart arg.(arg_id) arg.(arg_quantity) arg.(arg_options)) in
      match addToCartResponse with
      | FailureResponse error => throw (ApiErrorObject error)
      | SuccessResponse body => ret body
      end
  end.

(** The fetcher of [useUpdateCartItemQuantity]. *)
Definition updateCartItemQuantityFetcher (id : string) (quantity : Z)
  : Async (Client * S) currentCart.Cart :=
  let* response := gateway (CallUpdateCartItemQuantity (Some id) quantity) in
  match response with
  | FailureResponse error => throw (ApiErrorObject error)
  | SuccessResponse body => ret body
  end.

(** The fetcher of [useRemoveItemFromCart]. *)
Definition removeItemFromCartFetcher (arg : string)
  : Async (Client * S) currentCart.Cart :=
  let* response := gateway (CallRemoveItemFromCart arg) in
  match response with
  | FailureResponse error => throw (ApiErrorObject error)
  | SuccessResponse body => ret body
  end.

(** *** Mutations in flight

    [useSWRMutation('cart', fetcher, { revalidate: false, populateCache:
    true })]: [trigger] runs the fetcher and returns a promise; when the
    promise settles, a resolved value replaces the cache entry and a
    rejection leaves it as it is; then the callbacks attached to the
    promise run.  The callbacks this code attaches are listed in
    [Continuation]. *)
Inductive Continuation :=
| FinallyClearUpdating (id : string)
    (* [.finally(() => setUpdatingCartItems((prev) =>
         prev.filter((itemId) => itemId !== id)))] *)
| ThenOpenCart
    (* [.then(() => cartOpener.setIsOpen(true))] *)
| NoCallback.

Record Pending :=
  { settlesWith : Outcome currentCart.Cart;
    continuation : Continuation }.

Record Runtime :=
  { client : Client;
    platform : S;
    inflight : list Pending }.

Definition populateCache (outcome : Outcome currentCart.Cart) (cl : Client)
  : Client :=
  match outcome with
  | Resolved data => setCartData (Some data) cl
  | Rejected _ => cl
  end.

Definition runContinuation (k : Continuation)
    (outcome : Outcome currentCart.Cart) (cl : Client) : Client :=
  match k, outcome with
  | FinallyClearUpdating id, _ =>
      setUpdatingCartItems
        (λ prev, filter (λ itemId, itemId ≠ id) prev) cl
  | ThenOpenCart, Resolved _ => setIsOpen true cl
  | ThenOpenCart, Rejected _ => cl
  | NoCallback, _ => cl
  end.

Definition trigger (fetcher : Async (Client * S) currentCart.Cart)
    (k : Continuation) (rt : Runtime) : Runtime :=
  let '(outcome, (cl, s)) := fetcher (rt.(client), rt.(platform)) in
  {| client := cl;
     platform := s;
     inflight :=
       rt.(inflight) ++ [{| settlesWith := outcome; continuation := k |}] |}.

(** The [n]-th mutation in flight settles. *)
Definition settle (n : nat) (rt : Runtime) : Runtime :=
  match rt.(inflight) !! n with
  | None => rt
  | Some p =>
      {| client :=
           runContinuation p.(continuation) p.(settlesWith)
             (populateCache p.(settlesWith) rt.(client));
         platform := rt.(platform);
         inflight := delete n rt.(inflight) |}
  end.

(** *** [useCart] *)

Definition updateClient (f : Client → Client) (rt : Runtime) : Runtime :=
  {| client := f rt.(client);
     platform := rt.(platform);
     inflight := rt.(inflight) |}.

Definition updateItemQuantity (id : string) (quantity : Z) (rt : Runtime)
  : Runtime :=
  let rt := updateClient (setUpdatingCartItems (λ prev, prev ++ [id])) rt in
  trigger (updateCartItemQuantityFetcher id quantity)
    (FinallyClearUpdating id) rt.

Definition removeItem (id : string) (rt : Runtime) : Runtime :=
  let rt := updateClient (setUpdatingCartItems (λ prev, prev ++ [id])) rt in
  trigger (removeItemFromCartFetcher id) (FinallyClearUpdating id) rt.

(** [addToCart] of [useCart] ([addToCart] without the underscore is the
    Gateway operation).  It returns the promise of the trigger; [k] is what
    its caller attaches to it. *)
Definition addToCart_ (productId : string) (quantity : Z)
    (options : option AddToCartOptions) (k : Continuation) (rt : Runtime)
  : Runtime :=
  trigger
    (addToCartFetcher rt.(client).(cartData)
       {| arg_id := productId;
          arg_quantity := quantity;
          arg_options := options |})
    k rt.

(** What the user and the network can do to [useCart]. *)
Inductive CartEvent :=
| UpdateItemQuantity (id : string) (quantity : Z)
| RemoveItem (id : string)
| AddToCart (productId : string) (quantity : Z)
    (options : option AddToCartOptions) (k : Continuation)
| Settles (n : nat).

Definition cartStep (rt : Runtime) (ev : CartEvent) : Runtime :=
  match ev with
  | UpdateItemQuantity id quantity => updateItemQuantity id quantity rt
  | RemoveItem id => removeItem id rt
  | AddToCart productId quantity options k =>
      addToCart_ productId quantity options k rt
  | Settles n => settle n rt
  end.

Definition cartRun (rt : Runtime) (evs : list CartEvent) : Runtime :=
  foldl cartStep rt evs.
End Hooks.
Arguments Client : clear implicits.
Arguments Runtime : clear implicits.
Arguments Pending : clear implicits.

(** ** [useProductDetails] *)

#[global] Instance Choice_eq_dec : EqDecision products.Choice.
Proof. solve_decision. Defined.

(** [option?.choices?.length === 1 ? option.choices[0] : undefined] *)
Definition soleChoice (o : products.ProductOption) : option products.Choice :=
  match o.(products.choices) with
  | Some [choice] => Some choice
  | _ => None
  end.

(** The body of the loop of [getInitialSelectedChoices]:
    [if (option.name) { result[option.name] = ... }]. *)
Definition assignInitialChoice (result : gmap string (option products.Choice))
    (o : products.ProductOption) : gmap string (option products.Choice) :=
  match o.(products.name) with
  | Some name =>
      if truthy (Some name) then <[name := soleChoice o]> result else result
  | None => result
  end.

(** [for (const option of product.productOptions ?? []) ...] over an
    initially empty [result]. *)
Definition getInitialSelectedChoices (product : products.Product)
  : gmap string (option products.Choice) :=
  foldl assignInitialChoice ∅ (default [] product.(products.productOptions)).

(** [Object.values(obj)], in some order. *)
Definition Object_values {V} (obj : gmap string V) : list V :=
  (map_to_list obj).*2.

(** [values.includes(undefined)] *)
Definition includes_undefined {V} `{EqDecision V} (values : list (option V))
  : bool :=
  bool_decide (None ∈ values).

Section ProductDetails.
Context {S Filters SortBy : Type}.
Variable ecomApi : EcomAPI S Filters SortBy.

(** Helpers of [~/lib/utils] that [handleAddToCart] uses on the path that
    does add; their sources are elsewhere. *)
Variable getSelectedVariant :
  products.Product → gmap string (option products.Choice)
  → option products.Variant.
Variable selectedChoicesToVariantChoices :
  products.Product → gmap string (option products.Choice)
  → gmap string string.

Variable product : products.Product.

(** The three [useState] cells of the hook. *)
Record Details :=
  { selectedChoices : gmap string (option products.Choice);
    quantity : Z;
    addToCartAttempted : bool }.

Definition initialDetails : Details :=
  {| selectedChoices := getInitialSelectedChoices product;
     quantity := 1;
     addToCartAttempted := false |}.

Definition handleAddToCart (st : Details * Runtime S Filters SortBy)
  : Details * Runtime S Filters SortBy :=
  let '(d, rt) := st in
  let d' :=
    {| selectedChoices := d.(selectedChoices);
       quantity := d.(quantity);
       addToCartAttempted := true |} in
  if includes_undefined (Object_values d.(selectedChoices)) then (d', rt)
  else
    let selectedVariant := getSelectedVariant product d.(selectedChoices) in
    let variantId := selectedVariant ≫= products.variant_id in
    let options :=
      match product.(products.manageVariants), variantId with
      | Some true, Some id =>
          if truthy (Some id) then VariantIdOption id
          else ChoicesOption
                 (selectedChoicesToVariantChoices product d.(selectedChoices))
      | _, _ =>
          ChoicesOption
            (selectedChoicesToVariantChoices product d.(selectedChoices))
      end in
    (d',
     addToCart_ ecomApi product.(products._id) d.(quantity) (Some options)
       ThenOpenCart rt).

Definition handleOptionChange (optionName : string)
    (newChoice : products.Choice) (d : Details) : Details :=
  {| selectedChoices := <[optionName := Some newChoice]> d.(selectedChoices);
     quantity := 1;
     addToCartAttempted := d.(addToCartAttempted) |}.

(** [handleQuantityChange] is [setQuantity]. *)
Definition handleQuantityChange (q : Z) (d : Details) : Details :=
  {| selectedChoices := d.(selectedChoices);
     quantity := q;
     addToCartAttempted := d.(addToCartAttempted) |}.
End ProductDetails.
Arguments Details : clear implicits.

(** ** A reference platform

    Modelled from the spec: the remote commerce platform is outside the
    repository (section 6 of the specification treats it as an external
    collaborator).  [Store] is an in-memory stand-in on which the scenarios
    of section 8 are run: product queries filter by collection, sort by
    price and page; the cart appends a line item per added entry, sets the
    quantity of the line items named in an update, and drops removed ones.
    It never merges line items by itself.  [store_outage], when set, is
    the error every cart mutation is rejected with; [store_checkout] and
    [store_redirect] are the answers to the two checkout requests. *)
Record Store :=
  { store_products : list products.Product;
    store_collections : list collections.Collection;
    store_cart : currentCart.Cart;
    store_nextLine : nat;
    store_outage : option Exn;
    store_checkout : Outcome (option string);
    store_redirect : Outcome (option redirects.RedirectSession) }.

Definition priceOf (p : products.Product) : Q :=
  default 0%Q (p.(products.priceData) ≫= products.price).

Fixpoint insertBy {A} (le : A → A → bool) (x : A) (l : list A) : list A :=
  match l with
  | [] => [x]
  | y :: l' => if le x y then x :: l else y :: insertBy le x l'
  end.

Definition sortedBy {A} (le : A → A → bool) (l : list A) : list A :=
  foldr (insertBy le) [] l.

Definition inSomeCollection (wanted : list (option string))
    (p : products.Product) : bool :=
  existsb (λ c, bool_decide (Some c ∈ wanted)) p.(products.collectionIds).

Definition applyQueryOp (ps : list products.Product) (op : QueryOp)
  : list products.Product :=
  match op with
  | HasSome field wanted =>
      if decide (field = "collectionIds")
      then List.filter (inSomeCollection wanted) ps
      else ps
  | Eq field v =>
      if decide (field = "slug")
      then List.filter (λ p, bool_decide (p.(products.slug) = Some v)) ps
      else ps
  | Ge _ v => List.filter (λ p, Qle_bool v (priceOf p)) ps
  | Le _ v => List.filter (λ p, Qle_bool (priceOf p) v) ps
  | AscendingBy _ => sortedBy (λ a b, Qle_bool (priceOf a) (priceOf b)) ps
  | DescendingBy _ => sortedBy (λ a b, Qle_bool (priceOf b) (priceOf a)) ps
  | Skip n => drop (Z.to_nat n) ps
  | Limit n => take (Z.to_nat n) ps
  end.

Definition isPaging (op : QueryOp) : bool :=
  match op with Skip _ | Limit _ => true | _ => false end.

Definition runQuery (st : Store) (q : ProductsQuery) : ProductsQueryResult :=
  {| items := foldl applyQueryOp st.(store_products) q;
     totalCount :=
       Some (Z.of_nat
               (length
                  (foldl applyQueryOp st.(store_products)
                     (List.filter (λ op, negb (isPaging op)) q)))) |}.

Definition withCart (cart : currentCart.Cart) (next : nat) (st : Store)
  : Store :=
  {| store_products := st.(store_products);
     store_collections := st.(store_collections);
     store_cart := cart;
     store_nextLine := next;
     store_outage := st.(store_outage);
     store_checkout := st.(store_checkout);
     store_redirect := st.(store_redirect) |}.

(** A cart mutation: rejected during an outage, answered otherwise. *)
Definition mutation {A} (answer : Store → Outcome A * Store)
  : Async Store A :=
  λ st, match st.(store_outage) with
        | Some e => (Rejected e, st)
        | None => answer st
        end.

Definition lineId (n : nat) : string := "line-" +:+ pretty n.

(** Line items for the entries of one [addToCurrentCart] request, numbered
    from [next]. *)
Fixpoint newLines (next : nat)
    (entries : list (currentCart.CatalogReference * Z))
  : list currentCart.LineItem :=
  match entries with
  | [] => []
  | (reference, quantity) :: rest =>
      {| currentCart._id := Some (lineId next);
         currentCart.quantity := Some quantity;
         currentCart.catalogReference := Some reference |}
      :: newLines (Datatypes.S next) rest
  end.

Definition setQuantityOf (id : option string) (quantity : Z)
    (it : currentCart.LineItem) : currentCart.LineItem :=
  if decide (it.(currentCart._id) = id)
  then {| currentCart._id := it.(currentCart._id);
          currentCart.quantity := Some quantity;
          currentCart.catalogReference := it.(currentCart.catalogReference) |}
  else it.

Definition applyQuantities (entries : list (option string * Z))
    (lines : list currentCart.LineItem) : list currentCart.LineItem :=
  foldl (λ ls entry, setQuantityOf entry.1 entry.2 <$> ls) lines entries.

Definition memoryClient : WixApiClient Store :=
  {| products_find q := λ st, (Resolved (runQuery st q), st);
     collections_getCollectionBySlug slug := λ st,
       match List.find (λ c, bool_decide (c.(collections.slug) = slug))
               st.(store_collections) with
       | Some c => (Resolved (Some c), st)
       | None => (Rejected (SdkErrorObject 404 "collection not found"), st)
       end;
     collections_queryCollections_find := λ st,
       (Resolved st.(store_collections), st);
     currentCart_getCurrentCart := λ st, (Resolved st.(store_cart), st);
     currentCart_estimateCurrentCartTotals := λ st,
       (Resolved {| currentCart.subtotal := None; currentCart.total := None |},
        st);
     currentCart_updateCurrentCartLineItemQuantity entries := mutation (λ st,
       let cart :=
         {| currentCart.lineItems :=
              applyQuantities entries
                st.(store_cart).(currentCart.lineItems) |} in
       (Resolved (Some cart), withCart cart st.(store_nextLine) st));
     currentCart_removeLineItemsFromCurrentCart ids := mutation (λ st,
       let cart :=
         {| currentCart.lineItems :=
              List.filter
                (λ it, match it.(currentCart._id) with
                       | Some id => negb (bool_decide (id ∈ ids))
                       | None => true
                       end)
                st.(store_cart).(currentCart.lineItems) |} in
       (Resolved (Some cart), withCart cart st.(store_nextLine) st));
     currentCart_addToCurrentCart entries := mutation (λ st,
       let cart :=
         {| currentCart.lineItems :=
              st.(store_cart).(currentCart.lineItems)
              ++ newLines st.(store_nextLine) entries |} in
       (Resolved (Some cart),
        withCart cart (st.(store_nextLine) + length entries)%nat st));
     currentCart_createCheckoutFromCurrentCart _ := λ st,
       (st.(store_checkout), st);
     redirects_createRedirectSession _ := λ st, (st.(store_redirect), st);
     orders_getOrder _ := λ st, (Resolved None, st) |}.

(** ** Instances used by the scenarios and counterexamples *)

(** A concrete reading of [getErrorMessage]: the message an error carries,
    the printed value for anything else. *)
Definition messageOf (e : Exn) : string :=
  match e with
  | ErrorObject msg => msg
  | SdkErrorObject _ msg => msg
  | ApiErrorObject error => error.(message)
  | OtherValue repr => repr
  end.

Definition memoryApi : EcomAPI Store unit unit :=
  createApi messageOf (λ q _, q) (λ q _, q) "stores-app" "https://shop.example"
    memoryClient.

Definition emptyStore : Store :=
  {| store_products := [];
     store_collections := [];
     store_cart := {| currentCart.lineItems := [] |};
     store_nextLine := 1;
     store_outage := None;
     store_checkout := Resolved (Some "checkout-1");
     store_redirect :=
       Resolved
         (Some {| redirects.fullUrl :=
                    Some "https://checkout.example/session" |}) |}.

(** A storefront whose cart is loaded and empty, with no mutation in
    flight, in front of the reference platform. *)
Definition idleClient (cart : option currentCart.Cart) : Client unit unit :=
  {| cartData := cart;
     updatingCartItemIds := [];
     cartIsOpen := false;
     issued := [] |}.

Definition shopRuntime : Runtime Store unit unit :=
  {| client := idleClient (Some {| currentCart.lineItems := [] |});
     platform := emptyStore;
     inflight := [] |}.

(** The line item the reference platform holds for one added entry. *)
Definition lineOf (n : nat) (productId : string) (quantity : Z)
    (options : option AddToCartOptions) : currentCart.LineItem :=
  {| currentCart._id := Some (lineId n);
     currentCart.quantity := Some quantity;
     currentCart.catalogReference :=
       Some {| currentCart.catalogItemId := Some productId;
               currentCart.appId := Some "stores-app";
               currentCart.options := options |} |}.

(** The store of the price-bounds scenario: three products of category
    [sale] priced 10, 25 and 7, and two products of another category. *)
Definition pricedProduct (id : string) (collection : string) (p : Q)
  : products.Product :=
  {| products._id := id;
     products.slug := Some id;
     products.productOptions := None;
     products.manageVariants := None;
     products.priceData := Some {| products.price := Some p |};
     products.collectionIds := [collection] |}.

Definition saleStore : Store :=
  {| store_products :=
       [ pricedProduct "a" "c-sale" 10%Q;
         pricedProduct "x" "c-other" 3%Q;
         pricedProduct "b" "c-sale" 25%Q;
         pricedProduct "y" "c-other" 99%Q;
         pricedProduct "c" "c-sale" 7%Q ];
     store_collections :=
       [ {| collections._id := Some "c-sale"; collections.slug := "sale" |};
         {| collections._id := Some "c-other"; collections.slug := "other" |} ];
     store_cart := {| currentCart.lineItems := [] |};
     store_nextLine := 1;
     store_outage := None;
     store_checkout := Resolved (Some "checkout-1");
     store_redirect := Resolved None |}.

Definition recordingApi : EcomAPI (Store * list PlatformCall) unit unit :=
  createApi messageOf (λ q _, q) (λ q _, q) "stores-app" "https://shop.example"
    (recording memoryClient).

Definition sizeS : products.Choice :=
  {| products.value := Some "S"; products.description := Some "S" |}.

Definition sizeM : products.Choice :=
  {| products.value := Some "M"; products.description := Some "M" |}.

Definition optionSizeSM : products.ProductOption :=
  {| products.name := Some "Size"; products.choices := Some [sizeS; sizeM] |}.



(** Product P of the add-to-cart scenario: one option, [Size], with the
    choices S and M; not variant-managed. *)
Definition productP : products.Product :=
  {| products._id := "P";
     products.slug := Some "p";
     products.productOptions := Some [optionSizeSM];
     products.manageVariants := Some false;
     products.priceData := Some {| products.price := Some 10%Q |};
     products.collectionIds := [] |}.


Definition withOutage (e : Exn) (st : Store) : Store :=
  {| store_products := st.(store_products);
     store_collections := st.(store_collections);
     store_cart := st.(store_cart);
     store_nextLine := st.(store_nextLine);
     store_outage := Some e;
     store_checkout := Rejected e;
     store_redirect := Rejected e |}.


(** ** [getWixClientId] ([src/lib/ecom/api.ts]) *)

(** The ambient globals the function inspects.  [window_ENV] is [None]
    where [window] is undefined, [Some None] where [window.ENV] is unset
    and [Some (Some env)] where the root loader has set it; [process_env]
    is [None] where [process] is undefined.  An environment maps variable
    names to strings. *)
Record Globals :=
  { window_ENV : option (option (gmap string string));
    process_env : option (gmap string string) }.

(** [DEMO_STORE_WIX_CLIENT_ID] is a constant of [./constants]. *)
Definition getWixClientId (DEMO_STORE_WIX_CLIENT_ID : string) (g : Globals)
  : string :=
  let env : gmap string string :=
    match g.(window_ENV) with
    | Some (Some ENV) => ENV
    | _ =>
        match g.(process_env) with
        | Some env => env
        | None => ∅
        end
    end in
  default DEMO_STORE_WIX_CLIENT_ID (env !! "WIX_CLIENT_ID").

(** ** [checkout] of [useCart] ([src/lib/ecom/hooks.ts]) *)

(** What [checkout] does to the browser: it assigns
    [window.location.href] or raises an [alert]. *)
Record Browser :=
  { location_href : string;
    alerts : list string }.

Definition useCart_checkout {S Filters SortBy}
    (ecomAPI : EcomAPI S Filters SortBy) : Async (Browser * S) unit :=
  λ '(b, s),
    match ecomAPI.(checkout) s with
    | (Resolved checkoutResponse, s') =>
        match checkoutResponse with
        | SuccessResponse body =>
            (Resolved tt,
             ({| location_href := body.(checkoutUrl);
                 alerts := b.(alerts) |}, s'))
        | FailureResponse _ =>
            (Resolved tt,
             ({| location_href := b.(location_href);
                 alerts := b.(alerts) ++ ["checkout is not configured"] |},
              s'))
        end
    | (Rejected e, s') => (Rejected e, (b, s'))
    end.

(** ** [Accordion] ([src/unnamed/part_000]) *)

Section Accordion.
(** [React.ReactNode] *)
Context {ReactNode : Type}.

Record AccordionItem := { title : string; content : ReactNode }.

Inductive ToggleIcon := MinusIcon | PlusIcon.

(** What is rendered for one item: its key, its title, the toggle icon
    and whether the content carries the [expanded] class. *)
Record AccordionRow :=
  { row_key : nat;
    row_title : string;
    row_icon : ToggleIcon;
    row_expanded : bool;
    row_content : ReactNode }.

(** [useState<number | null>(0)] *)
Definition initialOpenItemIndex : option nat := Some 0%nat.

(** [openItemIndex === index] *)
Definition isOpen (openItemIndex : option nat) (index : nat) : bool :=
  bool_decide (openItemIndex = Some index).

(** The click handler of the header of item [index]:
    [setOpenItemIndex(isOpen ? null : index)]. *)
Definition clickHeader (index : nat) (openItemIndex : option nat)
  : option nat :=
  if isOpen openItemIndex index then None else Some index.

(** [items.map((item, index) => ...)] *)
Definition renderAccordion (items : list AccordionItem)
    (openItemIndex : option nat) : list AccordionRow :=
  imap
    (λ index item,
       {| row_key := index;
          row_title := item.(title);
          row_icon := if isOpen openItemIndex index then MinusIcon
                      else PlusIcon;
          row_expanded := isOpen openItemIndex index;
          row_content := item.(content) |})
    items.
End Accordion.
Arguments AccordionItem : clear implicits.
Arguments AccordionRow : clear implicits.

(** ** Tables used to state properties of the Gateway *)

(** The failure codes an operation of [createApi] can report, read off its
    [failureResponse] calls (for [getFeaturedProducts], off the operations
    whose error it throws). *)
Definition failureCodes {Filters SortBy} (c : GatewayCall Filters SortBy)
  : list EcomApiErrorCodes :=
  match c with
  | CallGetProducts _ => [GetProductsFailure]
  | CallGetProductsByCategory _ _ => [GetProductsFailure]
  | CallGetFeaturedProducts _ _ =>
      [CategoryNotFound; GetCategoryFailure; GetProductsFailure]
  | CallGetPromotedProducts => [GetProductsFailure]
  | CallGetProductBySlug _ => [ProductNotFound; GetProductFailure]
  | CallGetCart => [GetCartFailure]
  | CallGetCartTotals => [GetCartTotalsFailure]
  | CallUpdateCartItemQuantity _ _ => [UpdateCartItemQuantityFailure]
  | CallRemoveItemFromCart _ => [RemoveCartItemFailure]
  | CallAddToCart _ _ _ => [AddCartItemFailure]
  | CallCheckout =>
      [CreateCheckoutFailure; CreateCheckoutRedirectSessionFailure]
  | CallGetAllCategories => [GetAllCategoriesFailure]
  | CallGetCategoryBySlug _ => [CategoryNotFound; GetCategoryFailure]
  | CallGetOrder _ => [OrderNotFound; GetOrderFailure]
  | CallGetProductPriceBounds _ => [GetProductsFailure]
  end.

(** The request of an operation that makes a single platform call; [None]
    for the operations that make several. *)
Definition platformCallOf {Filters SortBy} (WIX_STORES_APP_ID : string)
    (c : GatewayCall Filters SortBy) : option PlatformCall :=
  match c with
  | CallGetProducts limit => Some (PFind [Limit (default 100 limit)])
  | CallGetPromotedProducts => Some (PFind [Limit 4])
  | CallGetProductBySlug slug => Some (PFind [Eq "slug" slug; Limit 1])
  | CallGetCart => Some PGetCurrentCart
  | CallGetCartTotals => Some PEstimateCurrentCartTotals
  | CallUpdateCartItemQuantity id quantity =>
      Some (PUpdateCurrentCartLineItemQuantity
              [(if truthy id then id else None, quantity)])
  | CallRemoveItemFromCart id => Some (PRemoveLineItemsFromCurrentCart [id])
  | CallAddToCart id quantity options =>
      Some (PAddToCurrentCart
              [({| currentCart.catalogItemId := Some id;
                   currentCart.appId := Some WIX_STORES_APP_ID;
                   currentCart.options := options |}, quantity)])
  | CallGetAllCategories => Some PQueryCollections
  | CallGetCategoryBySlug slug => Some (PGetCollectionBySlug slug)
  | CallGetOrder id => Some (PGetOrder id)
  | CallGetProductsByCategory _ _
  | CallGetFeaturedProducts _ _
  | CallCheckout
  | CallGetProductPriceBounds _ => None
  end.

(** ** Further instances *)

(** A platform that cannot be reached: every call is rejected. *)
Definition offlineClient : WixApiClient unit :=
  let unreachable {A} : Async unit A :=
    throw (ErrorObject "Failed to fetch") in
  {| products_find _ := unreachable;
     collections_getCollectionBySlug _ := unreachable;
     collections_queryCollections_find := unreachable;
     currentCart_getCurrentCart := unreachable;
     currentCart_estimateCurrentCartTotals := unreachable;
     currentCart_updateCurrentCartLineItemQuantity _ := unreachable;
     currentCart_removeLineItemsFromCurrentCart _ := unreachable;
     currentCart_addToCurrentCart _ := unreachable;
     currentCart_createCheckoutFromCurrentCart _ := unreachable;
     redirects_createRedirectSession _ := unreachable;
     orders_getOrder _ := unreachable |}.


Definition gatewayFor {S} (client : WixApiClient S) : EcomAPI S unit unit :=
  createApi messageOf (λ q _, q) (λ q _, q) "stores-app" "https://shop.example"
    client.

(** A product whose only option has no name. *)
Definition unnamedOptionProduct : products.Product :=
  {| products._id := "U";
     products.slug := Some "u";
     products.productOptions :=
       Some [{| products.name := None;
                products.choices := Some [sizeS; sizeM] |}];
     products.manageVariants := Some false;
     products.priceData := None;
     products.collectionIds := [] |}.

Definition twoSections : list (AccordionItem unit) :=
  [{| title := "Details"; content := tt |};
   {| title := "Shipping"; content := tt |}].

(** ** The invariant of busy-item tracking *)

(** Every id in [updatingCartItemIds] belongs to a mutation in flight
    whose [finally] callback will remove it. *)
Definition noStaleEntry {S Filters SortBy} (rt : Runtime S Filters SortBy)
  : Prop :=
  ∀ id, id ∈ rt.(client).(updatingCartItemIds) →
        ∃ p, p ∈ rt.(inflight) ∧ p.(continuation) = FinallyClearUpdating id.

(** * Properties *)

(** ** Reasoning about asynchronous computations *)

Ltac async_unfold :=
  unfold try_catch, bind, ret, throw, promise_all2, recorded,
    successResponse, failureResponse in *.

Lemma try_catch_resolves {S A} (body : Async S A) (handler : Exn → Async S A) :
  (∀ e s, ∃ r s', handler e s = (Resolved r, s')) →
  ∀ s, (∃ a s', body s = (Resolved a, s')
                ∧ try_catch body handler s = (Resolved a, s'))
       ∨ (∃ e s1 r s', body s = (Rejected e, s1)
                       ∧ handler e s1 = (Resolved r, s')
                       ∧ try_catch body handler s = (Resolved r, s')).
Proof.
  intros Hh s. unfold try_catch.
  destruct (body s) as [[a|e] s1] eqn:Hb.
  - left. eauto.
  - right. destruct (Hh e s1) as (r & s' & Hr). eauto 10.
Qed.

Lemma try_catch_total {S A} (body : Async S A) (handler : Exn → Async S A) :
  (∀ e s, ∃ r s', handler e s = (Resolved r, s')) →
  ∀ s, ∃ r s', try_catch body handler s = (Resolved r, s').
Proof.
  intros Hh s.
  destruct (try_catch_resolves body handler Hh s)
    as [(a & s' & _ & H) | (e & s1 & r & s' & _ & _ & H)]; eauto.
Qed.

Lemma ret_total {S A} (a : A) (s : S) : ∃ r s', ret a s = (Resolved r, s').
Proof. unfold ret. eauto. Qed.

Section GatewayFacts.
Context {S Filters SortBy : Type}.
Variable getErrorMessage : Exn → string.
Variable getFilteredProductsQuery : ProductsQuery → Filters → ProductsQuery.
Variable getSortedProductsQuery : ProductsQuery → SortBy → ProductsQuery.
Variable WIX_STORES_APP_ID : string.
Variable origin : string.

Abbreviation gatewayOf client :=
  (createApi getErrorMessage getFilteredProductsQuery getSortedProductsQuery
     WIX_STORES_APP_ID origin client).

Lemma simple_handler_total {A} (c : EcomApiErrorCodes) :
  ∀ e (s : S), ∃ (r : EcomAPIResponse A) s',
    ret (failureResponse c (getErrorMessage e)) s = (Resolved r, s').
Proof. intros. apply ret_total. Qed.

Lemma not_found_handler_total {A} (c1 c2 : EcomApiErrorCodes) (msg : string) :
  ∀ e (s : S), ∃ (r : EcomAPIResponse A) s',
    (if isEcomSDKError e && bool_decide (applicationErrorCode_of e = Some 404)
     then ret (failureResponse c1 msg)
     else ret (failureResponse c2 (getErrorMessage e))) s = (Resolved r, s').
Proof. intros. destruct (_ && _); apply ret_total. Qed.

Lemma checkout_total (wixClient : WixApiClient S) (s : S) :
  ∃ r s', api_checkout getErrorMessage origin wixClient s = (Resolved r, s').
Proof.
  unfold api_checkout. async_unfold.
  destruct (currentCart_createCheckoutFromCurrentCart wixClient _ s)
    as [[checkoutId|e] s1]; [|eauto].
  destruct (redirects_createRedirectSession wixClient _ s1)
    as [[session|e] s2]; [|eauto].
  destruct (session ≫= redirects.fullUrl) as [url|]; [|eauto].
  destruct (truthy (Some url)); eauto.
Qed.

Lemma getCategoryBySlug_total (wixClient : WixApiClient S) slug (s : S) :
  ∃ r s', api_getCategoryBySlug getErrorMessage wixClient slug s
          = (Resolved r, s').
Proof.
  apply try_catch_total. intros. apply not_found_handler_total.
Qed.

Lemma getProductsByCategory_total (wixClient : WixApiClient S) slug params
    (s : S) :
  ∃ r s', api_getProductsByCategory getErrorMessage getFilteredProductsQuery
            getSortedProductsQuery wixClient slug params s
          = (Resolved r, s').
Proof.
  apply try_catch_total. intros. apply simple_handler_total.
Qed.

(** The featured-products operation has no [catch]: it resolves only to a
    success response and rejects with the error of a failure response. *)
Lemma featured_success_or_throw (wixClient : WixApiClient S)
    (slug : string) (count : Z) (s : S) :
  (∃ body s', (gatewayOf wixClient).(getFeaturedProducts) slug count s
              = (Resolved (SuccessResponse body), s'))
  ∨ (∃ error s', (gatewayOf wixClient).(getFeaturedProducts) slug count s
                 = (Rejected (ApiErrorObject error), s')).
Proof.
  cbn [createApi getFeaturedProducts]. unfold api_getFeaturedProducts.
  assert (Hproducts : ∀ (category : collections.Collection) s1,
    (∃ body s',
       (let* productsResponse :=
          api_getProductsByCategory getErrorMessage getFilteredProductsQuery
            getSortedProductsQuery wixClient category.(collections.slug)
            {| skip := None; limit := Some count;
               filters := None; sortBy := None |} in
        match productsResponse with
        | FailureResponse error => throw (ApiErrorObject error)
        | SuccessResponse body =>
            ret (successResponse
                   {| category := category;
                      featured_items := body.(page_items) |})
        end) s1 = (Resolved (SuccessResponse body), s'))
    ∨ (∃ error s',
       (let* productsResponse :=
          api_getProductsByCategory getErrorMessage getFilteredProductsQuery
            getSortedProductsQuery wixClient category.(collections.slug)
            {| skip := None; limit := Some count;
               filters := None; sortBy := None |} in
        match productsResponse with
        | FailureResponse error => throw (ApiErrorObject error)
        | SuccessResponse body =>
            ret (successResponse
                   {| category := category;
                      featured_items := body.(page_items) |})
        end) s1 = (Rejected (ApiErrorObject error), s'))).
  { intros cat s1.
    destruct (getProductsByCategory_total wixClient cat.(collections.slug)
                {| skip := None; limit := Some count;
                   filters := None; sortBy := None |} s1)
      as (r & s2 & H).
    unfold bind. rewrite H.
    destruct r as [page|error]; [left|right]; async_unfold; eauto. }
  destruct (getCategoryBySlug_total wixClient slug s) as (r1 & s1 & H1).
  set (rest := λ category : collections.Collection, bind _ _) in *.
  unfold bind. rewrite H1. destruct r1 as [cat|error].
  - unfold ret. apply Hproducts.
  - destruct (decide (code error = CategoryNotFound)) as [_|_].
    + destruct (getCategoryBySlug_total wixClient "all-products" s1)
        as (r2 & s2 & H2).
      rewrite H2. destruct r2 as [cat|error2].
      * apply Hproducts.
      * right. unfold throw. eauto.
    + right. unfold throw. eauto.
Qed.
(** C2 (as amended).  Every Gateway operation other than
    [getFeaturedProducts] returns a tagged result on every input and
    whatever the platform calls do: it resolves, it never rejects.
    [getFeaturedProducts] either resolves to a success response or rejects
    with the [{code, message}] error of a failed lookup. *)
Theorem gateway_tagged_results (wixClient : WixApiClient S)
    (c : GatewayCall Filters SortBy) (s : S) :
  if isGetFeaturedProducts c
  then (∃ body s', perform (gatewayOf wixClient) c s
                   = (Resolved (SuccessResponse body), s'))
       ∨ (∃ error s', perform (gatewayOf wixClient) c s
                      = (Rejected (ApiErrorObject error), s'))
  else ∃ r s', perform (gatewayOf wixClient) c s = (Resolved r, s').
Proof.
  destruct c; cbn [isGetFeaturedProducts perform createApi
                     getProducts getProductsByCategory getFeaturedProducts
                     getPromotedProducts getProductBySlug getCart
                     getCartTotals updateCartItemQuantity removeItemFromCart
                     addToCart checkout getAllCategories getCategoryBySlug
                     getOrder getProductPriceBounds];
    try (apply try_catch_total; intros;
         first [ apply simple_handler_total
               | apply not_found_handler_total ]).
  - apply featured_success_or_throw.
  - apply checkout_total.
Qed.
(** On a recording client the category lookup behaves as on the client it
    wraps and adds one entry to the journal. *)
Lemma getCategoryBySlug_recording (wixClient : WixApiClient S)
    (slug : string) (s : S) (j : list PlatformCall) :
  api_getCategoryBySlug getErrorMessage (recording wixClient) slug (s, j)
  = let '(r, s') := api_getCategoryBySlug getErrorMessage wixClient slug s in
    (r, (s', j ++ [PGetCollectionBySlug slug])).
Proof.
  unfold api_getCategoryBySlug, try_catch, bind. cbn.
  destruct (collections_getCollectionBySlug wixClient slug s)
    as [[[category|]|e] s1]; cbn; try reflexivity.
  destruct (isEcomSDKError e
            && bool_decide (applicationErrorCode_of e = Some 404));
    reflexivity.
Qed.

(** C3.  When the lookup of the requested category fails with
    [CategoryNotFound], [getFeaturedProducts] looks up ['all-products']
    next (the two lookups are the platform calls it has made by then); if
    that lookup fails too, the caller gets the error of the first lookup;
    if it succeeds, the products of the fallback category are fetched. *)
Theorem featured_products_fallback (wixClient : WixApiClient S)
    (slug : string) (count : Z) (s : S) (j : list PlatformCall)
    (error : EcomApiError) (s1 : S * list PlatformCall) :
  let api := gatewayOf (recording wixClient) in
  let lookups :=
    j ++ [PGetCollectionBySlug slug; PGetCollectionBySlug "all-products"] in
  api.(getCategoryBySlug) slug (s, j) = (Resolved (FailureResponse error), s1) →
  error.(code) = CategoryNotFound →
  ∃ r w2,
    api.(getCategoryBySlug) "all-products" s1 = (Resolved r, (w2, lookups))
    ∧ match r with
      | FailureResponse _ =>
          api.(getFeaturedProducts) slug count (s, j)
          = (Rejected (ApiErrorObject error), (w2, lookups))
      | SuccessResponse fallback =>
          ∀ products s3,
            api.(getProductsByCategory) fallback.(collections.slug)
              {| skip := None; limit := Some count;
                 filters := None; sortBy := None |} (w2, lookups)
            = (Resolved products, s3) →
            api.(getFeaturedProducts) slug count (s, j)
            = (match products with
               | SuccessResponse page =>
                   Resolved
                     (SuccessResponse
                        {| category := fallback;
                           featured_items := page.(page_items) |})
               | FailureResponse failure =>
                   Rejected (ApiErrorObject failure)
               end, s3)
      end.
Proof.
  intros api lookups H1 Hcode. subst api lookups.
  cbn [createApi getCategoryBySlug getFeaturedProducts
         getProductsByCategory] in *.
  pose proof (getCategoryBySlug_recording wixClient slug s j) as Hrec.
  rewrite H1 in Hrec.
  destruct (api_getCategoryBySlug getErrorMessage wixClient slug s)
    as [r0 w1] eqn:H0.
  injection Hrec as <- ->.
  destruct (getCategoryBySlug_total wixClient "all-products" w1)
    as (r & w2 & H2).
  pose proof (getCategoryBySlug_recording wixClient "all-products" w1
                (j ++ [PGetCollectionBySlug slug])) as Hrec2.
  rewrite H2 in Hrec2. rewrite <- app_assoc in Hrec2. cbn [app] in Hrec2.
  exists r, w2. split; [exact Hrec2|].
  unfold api_getFeaturedProducts.
  destruct r as [fallback|error2].
  - intros products s3 Hp.
    unfold bind, ret, throw. rewrite H1. cbv beta iota.
    destruct (decide (code error = CategoryNotFound)); [|contradiction].
    rewrite Hrec2. cbv beta iota. rewrite Hp.
    destruct products; reflexivity.
  - unfold bind, ret, throw. rewrite H1. cbv beta iota.
    destruct (decide (code error = CategoryNotFound)); [|contradiction].
    rewrite Hrec2. reflexivity.
Qed.


End GatewayFacts.

(** C2 (as stated) fails: on a store without categories,
    [getFeaturedProducts] rejects with the error object instead of
    returning a failure response. *)
Lemma getFeaturedProducts_rejects :
  perform memoryApi (CallGetFeaturedProducts "sale" 4) emptyStore
  = (Rejected
       (ApiErrorObject
          {| code := CategoryNotFound; message := "Category not found" |}),
     emptyStore)
  ∧ ¬ never_throws memoryApi.
Proof.
  assert (H : perform memoryApi (CallGetFeaturedProducts "sale" 4) emptyStore
              = (Rejected
                   (ApiErrorObject
                      {| code := CategoryNotFound;
                         message := "Category not found" |}),
                 emptyStore)) by reflexivity.
  split; [exact H|].
  intros Hnever.
  destruct (Hnever (CallGetFeaturedProducts "sale" 4) emptyStore)
    as (r & s' & Hr).
  rewrite H in Hr. discriminate Hr.
Qed.

(** [items[0]?.priceData?.price ?? 0], case by case. *)
Lemma boundaryPrice_spelled (found : ProductsQueryResult) :
  boundaryPrice found
  = match found.(items) with
    | [] => 0%Q
    | item :: _ =>
        match item.(products.priceData) with
        | None => 0%Q
        | Some data =>
            match data.(products.price) with
            | None => 0%Q
            | Some p => p
            end
        end
    end.
Proof.
  unfold boundaryPrice.
  destruct (items found) as [|[? ? ? ? [[[p|]]|] ?] ?]; reflexivity.
Qed.

Section PriceBounds.
Context {S Filters SortBy : Type}.
Variable getErrorMessage : Exn → string.
Variable getFilteredProductsQuery : ProductsQuery → Filters → ProductsQuery.
Variable getSortedProductsQuery : ProductsQuery → SortBy → ProductsQuery.
Variable WIX_STORES_APP_ID : string.
Variable origin : string.

(** C9.  For a category the platform knows, [getProductPriceBounds] makes
    the category lookup and then exactly two product queries on the
    category, ascending and descending by price with limit 1; [lowest] and
    [highest] are the prices of the first item of each answer, 0 when the
    item or its price is missing.  On a store whose category holds
    products priced 10, 25 and 7 the bounds are 7 and 25. *)
Theorem price_bounds_two_queries :
  (∀ (wixClient : WixApiClient S) (slug : string) (s : S)
     (j : list PlatformCall) category s1 ascendingPrice s2 descendingPrice s3,
     let query := [HasSome "collectionIds" [category.(collections._id)]] in
     let ascending := query ++ [AscendingBy "price"; Limit 1] in
     let descending := query ++ [DescendingBy "price"; Limit 1] in
     let firstPrice (found : ProductsQueryResult) :=
       match found.(items) with
       | [] => 0%Q
       | item :: _ =>
           match item.(products.priceData) with
           | None => 0%Q
           | Some data =>
               match data.(products.price) with
               | None => 0%Q
               | Some p => p
               end
           end
       end in
     wixClient.(collections_getCollectionBySlug) slug s
     = (Resolved (Some category), s1) →
     wixClient.(products_find) ascending s1 = (Resolved ascendingPrice, s2) →
     wixClient.(products_find) descending s2
     = (Resolved descendingPrice, s3) →
     (createApi getErrorMessage getFilteredProductsQuery
        getSortedProductsQuery WIX_STORES_APP_ID origin
        (recording wixClient)).(getProductPriceBounds) slug (s, j)
     = (Resolved
          (SuccessResponse
             {| lowest := firstPrice ascendingPrice;
                highest := firstPrice descendingPrice |}),
        (s3, j ++ [PGetCollectionBySlug slug;
                   PFind ascending; PFind descending])))
  ∧ memoryApi.(getProductPriceBounds) "sale" saleStore
    = (Resolved (SuccessResponse {| lowest := 7%Q; highest := 25%Q |}),
       saleStore).
Proof.
  split; [|reflexivity].
  intros wixClient slug s j cat s1 asc s2 desc s3 query ascending descending
    firstPrice Hc Ha Hd.
  subst query ascending descending.
  cbn [createApi getProductPriceBounds]. unfold api_getProductPriceBounds.
  async_unfold. cbn [recording collections_getCollectionBySlug products_find].
  unfold recorded. rewrite Hc. cbn [queryProducts app] in *.
  rewrite Ha, Hd. rewrite <- !app_assoc. cbn [app fst snd].
  rewrite !boundaryPrice_spelled. reflexivity.
Qed.
End PriceBounds.

(** C9, at an instance: the store and client of the scenario. *)
Lemma price_bounds_two_queries_witness :
  (createApi messageOf (λ q (_ : unit), q) (λ q (_ : unit), q) "stores-app"
     "https://shop.example"
     (recording memoryClient)).(getProductPriceBounds) "sale" (saleStore, [])
  = (Resolved (SuccessResponse {| lowest := 7%Q; highest := 25%Q |}),
     (saleStore,
      [PGetCollectionBySlug "sale";
       PFind [HasSome "collectionIds" [Some "c-sale"];
              AscendingBy "price"; Limit 1];
       PFind [HasSome "collectionIds" [Some "c-sale"];
              DescendingBy "price"; Limit 1]])).
Proof.
  exact (proj1 (price_bounds_two_queries messageOf (λ q (_ : unit), q)
                  (λ q (_ : unit), q) "stores-app" "https://shop.example")
           memoryClient "sale" saleStore []
           {| collections._id := Some "c-sale"; collections.slug := "sale" |}
           saleStore
           (runQuery saleStore
              [HasSome "collectionIds" [Some "c-sale"];
               AscendingBy "price"; Limit 1])
           saleStore
           (runQuery saleStore
              [HasSome "collectionIds" [Some "c-sale"];
               DescendingBy "price"; Limit 1])
           saleStore eq_refl eq_refl eq_refl).
Defined.

(** ** Product details *)

Lemma includes_undefined_lookup {V} `{EqDecision V}
    (obj : gmap string (option V)) :
  includes_undefined (Object_values obj) = true ↔ ∃ name, obj !! name = Some None.
Proof.
  unfold includes_undefined, Object_values.
  rewrite bool_decide_eq_true, list_elem_of_fmap. split.
  - intros ([name v] & Hv & Hin). cbn in Hv. subst v.
    exists name. by apply elem_of_map_to_list.
  - intros (name & Hname). exists (name, None). split; [done|].
    by apply elem_of_map_to_list.
Qed.

Lemma includes_undefined_none {V} `{EqDecision V}
    (obj : gmap string (option V)) :
  includes_undefined (Object_values obj) = false
  ↔ ∀ name v, obj !! name = Some v → v ≠ None.
Proof.
  rewrite <- not_true_iff_false, includes_undefined_lookup. split.
  - intros Hno name v Hv ->. apply Hno. eauto.
  - intros Hall (name & Hname). by apply (Hall name None).
Qed.

(** C7.  Changing an option choice sets the quantity to 1 whatever it
    was, records the new choice for that option and leaves the selections
    of all other options as they were. *)
Theorem option_change_resets_quantity (optionName : string)
    (newChoice : products.Choice) (d : Details) :
  let d' := handleOptionChange optionName newChoice d in
  d'.(quantity) = 1
  ∧ d'.(selectedChoices) !! optionName = Some (Some newChoice)
  ∧ (∀ other, other ≠ optionName →
       d'.(selectedChoices) !! other = d.(selectedChoices) !! other)
  ∧ d'.(addToCartAttempted) = d.(addToCartAttempted).
Proof.
  cbn. split; [done|]. split; [apply lookup_insert_eq|].
  split; [|done]. intros other Hne. by apply lookup_insert_ne.
Qed.

Section ProductDetailsFacts.
Context {S Filters SortBy : Type}.
Variable ecomApi : EcomAPI S Filters SortBy.
Variable getSelectedVariant :
  products.Product → gmap string (option products.Choice)
  → option products.Variant.
Variable selectedChoicesToVariantChoices :
  products.Product → gmap string (option products.Choice)
  → gmap string string.

(** C6.  While some option of the selection has no choice, add-to-cart
    only raises the attempted flag: the Gateway is not called (nothing is
    added to the journal of issued calls, the platform is not touched, no
    mutation is started) and nothing is thrown. *)
Theorem add_to_cart_rejected_while_unselected (product : products.Product)
    (d : Details) (rt : Runtime S Filters SortBy) (optionName : string) :
  d.(selectedChoices) !! optionName = Some None →
  let '(d', rt') :=
    handleAddToCart ecomApi getSelectedVariant
      selectedChoicesToVariantChoices product (d, rt) in
  d'.(addToCartAttempted) = true
  ∧ rt' = rt
  ∧ rt'.(client).(issued) = rt.(client).(issued)
  ∧ d'.(selectedChoices) = d.(selectedChoices)
  ∧ d'.(quantity) = d.(quantity).
Proof.
  intros Hunselected. unfold handleAddToCart.
  assert (Hinc : includes_undefined (Object_values d.(selectedChoices)) = true)
    by (apply includes_undefined_lookup; eauto).
  rewrite Hinc. cbn. done.
Qed.
End ProductDetailsFacts.

(** *** The initial selection *)

Lemma truthy_nonempty (name : string) : truthy (Some name) = true ↔ name ≠ "".
Proof. unfold truthy. destruct (decide (name = "")); naive_solver. Qed.

Lemma assign_lookup_named result o name :
  o.(products.name) = Some name → name ≠ "" →
  assignInitialChoice result o !! name = Some (soleChoice o).
Proof.
  intros Hname Hne. unfold assignInitialChoice. rewrite Hname.
  apply truthy_nonempty in Hne. rewrite Hne. apply lookup_insert_eq.
Qed.

Lemma assign_lookup_other result o name :
  o.(products.name) ≠ Some name →
  assignInitialChoice result o !! name = result !! name.
Proof.
  intros Hname. unfold assignInitialChoice.
  destruct (products.name o) as [name'|]; [|done].
  destruct (truthy (Some name')); [|done].
  apply lookup_insert_ne. congruence.
Qed.





(** ** The cart hooks *)

Lemma matchesCandidate_same n productId quantity options :
  matchesCandidate productId options (lineOf n productId quantity options)
  = true.
Proof.
  unfold matchesCandidate, lineOf. cbn.
  rewrite bool_decide_eq_true_2 by done.
  destruct options; [|done]. by rewrite bool_decide_eq_true_2.
Qed.

Lemma matchesCandidate_other n productId quantity options wanted :
  options ≠ Some wanted →
  matchesCandidate productId (Some wanted)
    (lineOf n productId quantity options) = false.
Proof.
  intros Hne. unfold matchesCandidate, lineOf. cbn.
  rewrite (bool_decide_eq_false_2 (options = Some wanted)) by done.
  apply andb_false_r.
Qed.

Section HooksFacts.
Context {S Filters SortBy : Type}.
Variable ecomApi : EcomAPI S Filters SortBy.

(** A fetcher makes one Gateway call, which is all it does to the client
    state, and rejects exactly on a failure response. *)
Lemma updateCartItemQuantityFetcher_run id quantity
    (cl : Client Filters SortBy) (s : S) :
  ∃ outcome s',
    updateCartItemQuantityFetcher ecomApi id quantity (cl, s)
    = (outcome,
       (journal (CallUpdateCartItemQuantity (Some id) quantity) cl, s')).
Proof.
  unfold updateCartItemQuantityFetcher, bind, gateway.
  destruct (perform ecomApi _ s) as [[[body|error]|e] s']; cbn; eauto.
Qed.

Lemma removeItemFromCartFetcher_run id (cl : Client Filters SortBy) (s : S) :
  ∃ outcome s',
    removeItemFromCartFetcher ecomApi id (cl, s)
    = (outcome, (journal (CallRemoveItemFromCart id) cl, s')).
Proof.
  unfold removeItemFromCartFetcher, bind, gateway.
  destruct (perform ecomApi _ s) as [[[body|error]|e] s']; cbn; eauto.
Qed.

Lemma addToCartFetcher_update cart arg item (cl : Client Filters SortBy)
    (s : S) :
  findItemIdInCart cart arg.(arg_id) arg.(arg_options) = Some item →
  ∃ outcome s',
    addToCartFetcher ecomApi (Some cart) arg (cl, s)
    = (outcome,
       (journal
          (CallUpdateCartItemQuantity item.(currentCart._id)
             (default 0 item.(currentCart.quantity) + arg.(arg_quantity)))
          cl, s')).
Proof.
  intros Hfind. unfold addToCartFetcher. rewrite Hfind.
  unfold bind, gateway.
  destruct (perform ecomApi _ s) as [[[body|error]|e] s']; cbn; eauto.
Qed.

Lemma addToCartFetcher_insert cart arg (cl : Client Filters SortBy) (s : S) :
  match cart with
  | Some cart => findItemIdInCart cart arg.(arg_id) arg.(arg_options)
  | None => None
  end = None →
  ∃ outcome s',
    addToCartFetcher ecomApi cart arg (cl, s)
    = (outcome,
       (journal
          (CallAddToCart arg.(arg_id) arg.(arg_quantity) arg.(arg_options))
          cl, s')).
Proof.
  intros Hfind. unfold addToCartFetcher. rewrite Hfind.
  unfold bind, gateway.
  destruct (perform ecomApi _ s) as [[[body|error]|e] s']; cbn; eauto.
Qed.

(** [findItemIdInCart] against the matching rule. *)
Lemma findItemIdInCart_some cart productId options :
  (∃ it, it ∈ cart.(currentCart.lineItems)
         ∧ matchesCandidate productId options it = true) →
  ∃ item, findItemIdInCart cart productId options = Some item
          ∧ item ∈ cart.(currentCart.lineItems)
          ∧ matchesCandidate productId options item = true.
Proof.
  intros (it & Hin & Hmatch). unfold findItemIdInCart.
  destruct (find _ _) as [item|] eqn:Hfind.
  - apply find_some in Hfind as [Hin' Hm]. exists item.
    rewrite list_elem_of_In. done.
  - apply list_elem_of_In in Hin.
    pose proof (find_none _ _ Hfind it Hin) as Hno. congruence.
Qed.

Lemma findItemIdInCart_none cart productId options :
  (∀ it, it ∈ cart.(currentCart.lineItems) →
         matchesCandidate productId options it = false) →
  findItemIdInCart cart productId options = None.
Proof.
  intros Hall. unfold findItemIdInCart.
  destruct (find _ _) as [item|] eqn:Hfind; [|done].
  apply find_some in Hfind as [Hin Hm].
  apply list_elem_of_In, Hall in Hin. congruence.
Qed.
End HooksFacts.

(** *** Adding to the cart on the reference platform *)

Lemma memory_addToCart productId quantity options (st : Store) :
  st.(store_outage) = None →
  let cart :=
    {| currentCart.lineItems :=
         st.(store_cart).(currentCart.lineItems)
         ++ [lineOf st.(store_nextLine) productId quantity options] |} in
  perform memoryApi (CallAddToCart productId quantity options) st
  = (Resolved (SuccessResponse cart),
     withCart cart (st.(store_nextLine) + 1) st).
Proof.
  intros Hup cart.
  cbn [perform memoryApi createApi addToCart]. unfold api_addToCart.
  unfold try_catch, bind. cbn [memoryClient currentCart_addToCurrentCart].
  unfold mutation. rewrite Hup. reflexivity.
Qed.

Lemma memory_updateCartItemQuantity id quantity (st : Store) :
  st.(store_outage) = None →
  id ≠ "" →
  let cart :=
    {| currentCart.lineItems :=
         setQuantityOf (Some id) quantity
           <$> st.(store_cart).(currentCart.lineItems) |} in
  perform memoryApi (CallUpdateCartItemQuantity (Some id) quantity) st
  = (Resolved (SuccessResponse cart), withCart cart st.(store_nextLine) st).
Proof.
  intros Hup Hid cart. apply truthy_nonempty in Hid.
  cbn [perform memoryApi createApi updateCartItemQuantity].
  unfold api_updateCartItemQuantity. rewrite Hid.
  unfold try_catch, bind.
  cbn [memoryClient currentCart_updateCurrentCartLineItemQuantity].
  unfold mutation. rewrite Hup. reflexivity.
Qed.

(** An add that finds no matching line item, followed to its settlement. *)
Lemma memory_add_inserts productId quantity options
    (cl : Client unit unit) (st : Store) :
  st.(store_outage) = None →
  match cl.(cartData) with
  | Some cart => findItemIdInCart cart productId options
  | None => None
  end = None →
  let cart :=
    {| currentCart.lineItems :=
         st.(store_cart).(currentCart.lineItems)
         ++ [lineOf st.(store_nextLine) productId quantity options] |} in
  settle 0
    (addToCart_ memoryApi productId quantity options NoCallback
       {| client := cl; platform := st; inflight := [] |})
  = {| client :=
         setCartData (Some cart)
           (journal (CallAddToCart productId quantity options) cl);
       platform := withCart cart (st.(store_nextLine) + 1) st;
       inflight := [] |}.
Proof.
  intros Hup Hfind cart. unfold addToCart_, trigger, addToCartFetcher.
  cbn [client platform inflight arg_id arg_quantity arg_options].
  rewrite Hfind. unfold bind, gateway.
  rewrite memory_addToCart by done. reflexivity.
Qed.

(** An add that finds a matching line item, followed to its settlement. *)
Lemma memory_add_updates productId quantity options
    (cl : Client unit unit) (st : Store) cart item id :
  st.(store_outage) = None →
  cl.(cartData) = Some cart →
  findItemIdInCart cart productId options = Some item →
  item.(currentCart._id) = Some id → id ≠ "" →
  let updated :=
    {| currentCart.lineItems :=
         setQuantityOf (Some id)
           (default 0 item.(currentCart.quantity) + quantity)
           <$> st.(store_cart).(currentCart.lineItems) |} in
  settle 0
    (addToCart_ memoryApi productId quantity options NoCallback
       {| client := cl; platform := st; inflight := [] |})
  = {| client :=
         setCartData (Some updated)
           (journal
              (CallUpdateCartItemQuantity (Some id)
                 (default 0 item.(currentCart.quantity) + quantity)) cl);
       platform := withCart updated st.(store_nextLine) st;
       inflight := [] |}.
Proof.
  intros Hup Hcart Hfind Hid Hne updated.
  unfold addToCart_, trigger, addToCartFetcher.
  cbn [client platform inflight arg_id arg_quantity arg_options].
  rewrite Hcart, Hfind, Hid. unfold bind, gateway.
  rewrite memory_updateCartItemQuantity by done. reflexivity.
Qed.

Lemma setQuantityOf_line n productId q q' options :
  setQuantityOf (Some (lineId n)) q' (lineOf n productId q options)
  = lineOf n productId q' options.
Proof.
  unfold setQuantityOf, lineOf. cbn [currentCart._id].
  by rewrite decide_True.
Qed.

Lemma lineId_nonempty n : lineId n ≠ "".
Proof. unfold lineId. cbn. discriminate. Qed.

(** C1.  An add-to-cart trigger makes exactly one Gateway call.  If the
    cached cart holds a line item matching the candidate, the call is an
    update of that item (the first match) to its quantity, 0 when it has
    none, plus the requested quantity; if no line item matches or no cart
    is cached, the call is an insert of the requested quantity.  Hence, on
    the reference platform and from an empty cart, adding a combination
    twice leaves one line item with the two quantities added up, and
    adding another combination of the same product appends a second line
    item. *)
Theorem add_to_cart_updates_or_inserts :
  (∀ (S Filters SortBy : Type) (ecomApi : EcomAPI S Filters SortBy)
     (rt : Runtime S Filters SortBy) productId quantity options k,
     let rt' := addToCart_ ecomApi productId quantity options k rt in
     let busy := rt.(client).(updatingCartItemIds) in
     (∀ cart,
        rt.(client).(cartData) = Some cart →
        (∃ it, it ∈ cart.(currentCart.lineItems)
               ∧ matchesCandidate productId options it = true) →
        ∃ item,
          findItemIdInCart cart productId options = Some item
          ∧ item ∈ cart.(currentCart.lineItems)
          ∧ matchesCandidate productId options item = true
          ∧ rt'.(client).(issued)
            = rt.(client).(issued)
              ++ [(CallUpdateCartItemQuantity item.(currentCart._id)
                     (default 0 item.(currentCart.quantity) + quantity),
                   busy)])
     ∧ ((rt.(client).(cartData) = None
         ∨ ∃ cart, rt.(client).(cartData) = Some cart
                   ∧ ∀ it, it ∈ cart.(currentCart.lineItems) →
                           matchesCandidate productId options it = false) →
        rt'.(client).(issued)
        = rt.(client).(issued)
          ++ [(CallAddToCart productId quantity options, busy)]))
  ∧ (∀ productId q1 q2 q3 options other,
       options ≠ Some other →
       let twice :=
         cartRun memoryApi shopRuntime
           [AddToCart productId q1 options NoCallback; Settles 0;
            AddToCart productId q2 options NoCallback; Settles 0] in
       let thrice :=
         cartRun memoryApi twice
           [AddToCart productId q3 (Some other) NoCallback; Settles 0] in
       let one := [lineOf 1 productId (q1 + q2) options] in
       let two :=
         [lineOf 1 productId (q1 + q2) options;
          lineOf 2 productId q3 (Some other)] in
       twice.(client).(cartData) = Some {| currentCart.lineItems := one |}
       ∧ twice.(platform).(store_cart) = {| currentCart.lineItems := one |}
       ∧ thrice.(client).(cartData) = Some {| currentCart.lineItems := two |}
       ∧ thrice.(platform).(store_cart) = {| currentCart.lineItems := two |}
       ∧ thrice.(client).(issued).*1
         = [CallAddToCart productId q1 options;
            CallUpdateCartItemQuantity (Some (lineId 1)) (q1 + q2);
            CallAddToCart productId q3 (Some other)]).
Proof.
  split.
  - intros S Filters SortBy ecomApi rt productId quantity options k rt' busy.
    subst rt' busy. unfold addToCart_, trigger. split.
    + intros cart Hcart Hmatch.
      destruct (findItemIdInCart_some cart productId options Hmatch)
        as (item & Hfind & Hin & Hitem).
      exists item. repeat split; try done.
      rewrite Hcart.
      destruct (addToCartFetcher_update ecomApi cart
                  {| arg_id := productId; arg_quantity := quantity;
                     arg_options := options |} item
                  rt.(client) rt.(platform) Hfind)
        as (outcome & s' & ->).
      reflexivity.
    + intros Hnone.
      assert (Hfind :
        match rt.(client).(cartData) with
        | Some cart => findItemIdInCart cart productId options
        | None => None
        end = None).
      { destruct Hnone as [->|(cart & -> & Hall)]; [done|].
        by apply findItemIdInCart_none. }
      destruct (addToCartFetcher_insert ecomApi rt.(client).(cartData)
                  {| arg_id := productId; arg_quantity := quantity;
                     arg_options := options |}
                  rt.(client) rt.(platform) Hfind)
        as (outcome & s' & ->).
      reflexivity.
  - intros productId q1 q2 q3 options other Hother twice thrice one two.
    assert (Htwice :
      twice
      = {| client :=
             setCartData (Some {| currentCart.lineItems := one |})
               (journal
                  (CallUpdateCartItemQuantity (Some (lineId 1)) (q1 + q2))
                  (setCartData
                     (Some {| currentCart.lineItems :=
                                [lineOf 1 productId q1 options] |})
                     (journal (CallAddToCart productId q1 options)
                        shopRuntime.(client))));
           platform :=
             withCart {| currentCart.lineItems := one |} 2 emptyStore;
           inflight := [] |}).
    { subst twice. unfold cartRun. cbn [foldl cartStep].
      unfold shopRuntime at 1.
      rewrite memory_add_inserts by reflexivity.
      cbn [store_cart store_nextLine emptyStore currentCart.lineItems app
             Nat.add].
      rewrite (memory_add_updates productId q2 options _ _
                 {| currentCart.lineItems :=
                      [lineOf 1 productId q1 options] |}
                 (lineOf 1 productId q1 options) (lineId 1)).
      - cbn [store_cart store_nextLine withCart currentCart.lineItems
               currentCart.quantity lineOf default fmap list_fmap].
        fold (lineOf 1 productId q1 options).
        rewrite setQuantityOf_line. reflexivity.
      - reflexivity.
      - reflexivity.
      - unfold findItemIdInCart. cbn [currentCart.lineItems find].
        by rewrite matchesCandidate_same.
      - reflexivity.
      - apply lineId_nonempty. }
    assert (Hthrice :
      thrice
      = {| client :=
             setCartData (Some {| currentCart.lineItems := two |})
               (journal (CallAddToCart productId q3 (Some other))
                  twice.(client));
           platform :=
             withCart {| currentCart.lineItems := two |} 3
               twice.(platform);
           inflight := [] |}).
    { subst thrice. rewrite Htwice at 1. unfold cartRun.
      cbn [foldl cartStep].
      rewrite memory_add_inserts.
      - rewrite Htwice. reflexivity.
      - reflexivity.
      - cbn [cartData setCartData]. unfold findItemIdInCart.
        subst one. cbn [currentCart.lineItems find].
        by rewrite matchesCandidate_other. }
    rewrite Hthrice, Htwice. cbn. done.
Qed.

(** *** Busy-item tracking *)

Lemma elem_of_delete_other {A} (l : list A) (n : nat) (x y : A) :
  l !! n = Some y → x ∈ l → x ≠ y → x ∈ delete n l.
Proof.
  revert n. induction l as [|a l IH]; intros n Hn Hin Hne.
  - by apply elem_of_nil in Hin.
  - destruct n as [|n]; cbn in *.
    + injection Hn as ->. apply elem_of_cons in Hin as [->|Hin]; done.
    + apply elem_of_cons in Hin as [->|Hin]; [by left|].
      right. by apply IH.
Qed.

Section Tracking.
Context {S Filters SortBy : Type}.
Variable ecomApi : EcomAPI S Filters SortBy.

Lemma addToCartFetcher_run cart arg (cl : Client Filters SortBy) (s : S) :
  ∃ c outcome s',
    addToCartFetcher ecomApi cart arg (cl, s) = (outcome, (journal c cl, s')).
Proof.
  destruct (match cart with
            | Some cart => findItemIdInCart cart arg.(arg_id) arg.(arg_options)
            | None => None
            end) as [item|] eqn:Hfind.
  - destruct cart as [cart|]; [|done].
    destruct (addToCartFetcher_update ecomApi cart arg item cl s Hfind)
      as (outcome & s' & H). eauto.
  - destruct (addToCartFetcher_insert ecomApi cart arg cl s Hfind)
      as (outcome & s' & H). eauto.
Qed.

Lemma updateItemQuantity_run id quantity (rt : Runtime S Filters SortBy) :
  ∃ outcome s',
    updateItemQuantity ecomApi id quantity rt
    = {| client :=
           journal (CallUpdateCartItemQuantity (Some id) quantity)
             (setUpdatingCartItems (λ prev, prev ++ [id]) rt.(client));
         platform := s';
         inflight :=
           rt.(inflight)
           ++ [{| settlesWith := outcome;
                  continuation := FinallyClearUpdating id |}] |}.
Proof.
  unfold updateItemQuantity, trigger, updateClient.
  cbn [client platform inflight].
  destruct (updateCartItemQuantityFetcher_run ecomApi id quantity
              (setUpdatingCartItems (λ prev, prev ++ [id]) rt.(client))
              rt.(platform)) as (outcome & s' & ->).
  eauto.
Qed.

Lemma removeItem_run id (rt : Runtime S Filters SortBy) :
  ∃ outcome s',
    removeItem ecomApi id rt
    = {| client :=
           journal (CallRemoveItemFromCart id)
             (setUpdatingCartItems (λ prev, prev ++ [id]) rt.(client));
         platform := s';
         inflight :=
           rt.(inflight)
           ++ [{| settlesWith := outcome;
                  continuation := FinallyClearUpdating id |}] |}.
Proof.
  unfold removeItem, trigger, updateClient.
  cbn [client platform inflight].
  destruct (removeItemFromCartFetcher_run ecomApi id
              (setUpdatingCartItems (λ prev, prev ++ [id]) rt.(client))
              rt.(platform)) as (outcome & s' & ->).
  eauto.
Qed.

Lemma updating_after_callbacks k outcome (cl : Client Filters SortBy) :
  (runContinuation k outcome (populateCache outcome cl)).(updatingCartItemIds)
  = match k with
    | FinallyClearUpdating id =>
        filter (λ itemId, itemId ≠ id) cl.(updatingCartItemIds)
    | _ => cl.(updatingCartItemIds)
    end.
Proof. destruct k, outcome; reflexivity. Qed.

Lemma noStaleEntry_marked id c outcome (s' : S)
    (rt : Runtime S Filters SortBy) :
  noStaleEntry rt →
  noStaleEntry
    {| client :=
         journal c (setUpdatingCartItems (λ prev, prev ++ [id]) rt.(client));
       platform := s';
       inflight :=
         rt.(inflight)
         ++ [{| settlesWith := outcome;
                continuation := FinallyClearUpdating id |}] |}.
Proof.
  intros Hinv id'. cbn. intros Hin.
  apply elem_of_app in Hin as [Hin|Hin].
  - destruct (Hinv id' Hin) as (p & Hp & Hk).
    exists p. split; [|done]. apply elem_of_app. by left.
  - apply list_elem_of_singleton in Hin as ->.
    eexists. split; [apply elem_of_app; right; by left|]. done.
Qed.

Lemma noStaleEntry_step (rt : Runtime S Filters SortBy) (ev : CartEvent) :
  noStaleEntry rt → noStaleEntry (cartStep ecomApi rt ev).
Proof.
  intros Hinv. destruct ev as [id quantity|id|productId quantity options k|n];
    cbn [cartStep].
  - destruct (updateItemQuantity_run id quantity rt) as (outcome & s' & ->).
    by apply noStaleEntry_marked.
  - destruct (removeItem_run id rt) as (outcome & s' & ->).
    by apply noStaleEntry_marked.
  - unfold addToCart_, trigger.
    destruct (addToCartFetcher_run rt.(client).(cartData)
                {| arg_id := productId; arg_quantity := quantity;
                   arg_options := options |} rt.(client) rt.(platform))
      as (c & outcome & s' & ->).
    intros id. cbn. intros Hin.
    destruct (Hinv id Hin) as (p & Hp & Hk).
    exists p. split; [|done]. apply elem_of_app. by left.
  - unfold settle. destruct (rt.(inflight) !! n) as [p|] eqn:Hn; [|done].
    intros id. cbn [client inflight]. rewrite updating_after_callbacks.
    intros Hin.
    assert (Hbefore : id ∈ rt.(client).(updatingCartItemIds)
                      ∧ p.(continuation) ≠ FinallyClearUpdating id).
    { destruct (continuation p) as [id0| |]; [|done..].
      apply list_elem_of_filter in Hin as [Hne Hin].
      split; [done|congruence]. }
    destruct Hbefore as [Hin' Hk].
    destruct (Hinv id Hin') as (p' & Hp' & Hk').
    exists p'. split; [|done].
    apply (elem_of_delete_other _ n p' p); [done..|congruence].
Qed.

Lemma noStaleEntry_run (evs : list CartEvent)
    (rt : Runtime S Filters SortBy) :
  noStaleEntry rt → noStaleEntry (cartRun ecomApi rt evs).
Proof.
  revert rt. induction evs as [|ev evs IH]; intros rt Hinv; [done|].
  cbn. apply IH. by apply noStaleEntry_step.
Qed.

(** C5.  [updateItemQuantity] and [removeItem] put the item's id into
    [updatingCartItemIds] before they call the Gateway: the call is
    journalled with the id already in the set.  When such a mutation
    settles, resolved or rejected, the id is no longer in the set.  Over
    any sequence of updates, removals, adds and settlements that starts
    with an empty set, every id in the set belongs to a mutation still in
    flight: no stale entry is kept. *)
Theorem updating_ids_follow_mutations :
  (∀ rt id quantity,
     let rt' := updateItemQuantity ecomApi id quantity rt in
     ∃ outcome,
       rt'.(client).(issued)
       = rt.(client).(issued)
         ++ [(CallUpdateCartItemQuantity (Some id) quantity,
              rt.(client).(updatingCartItemIds) ++ [id])]
       ∧ rt'.(client).(updatingCartItemIds)
         = rt.(client).(updatingCartItemIds) ++ [id]
       ∧ rt'.(inflight)
         = rt.(inflight)
           ++ [{| settlesWith := outcome;
                  continuation := FinallyClearUpdating id |}])
  ∧ (∀ rt id,
       let rt' := removeItem ecomApi id rt in
       ∃ outcome,
         rt'.(client).(issued)
         = rt.(client).(issued)
           ++ [(CallRemoveItemFromCart id,
                rt.(client).(updatingCartItemIds) ++ [id])]
         ∧ rt'.(client).(updatingCartItemIds)
           = rt.(client).(updatingCartItemIds) ++ [id]
         ∧ rt'.(inflight)
           = rt.(inflight)
             ++ [{| settlesWith := outcome;
                    continuation := FinallyClearUpdating id |}])
  ∧ (∀ (rt : Runtime S Filters SortBy) n outcome id,
       rt.(inflight) !! n
       = Some {| settlesWith := outcome;
                 continuation := FinallyClearUpdating id |} →
       (id ∉ updatingCartItemIds (client (settle n rt)))
       ∧ inflight (settle n rt) = delete n rt.(inflight))
  ∧ (∀ (rt : Runtime S Filters SortBy) evs,
       rt.(client).(updatingCartItemIds) = [] →
       ∀ id, id ∈ updatingCartItemIds (client (cartRun ecomApi rt evs)) →
             ∃ p, p ∈ inflight (cartRun ecomApi rt evs)
                  ∧ p.(continuation) = FinallyClearUpdating id).
Proof.
  split; [|split; [|split]].
  - intros rt id quantity.
    destruct (updateItemQuantity_run id quantity rt) as (outcome & s' & ->).
    exists outcome. done.
  - intros rt id.
    destruct (removeItem_run id rt) as (outcome & s' & ->).
    exists outcome. done.
  - intros rt n outcome id Hn. unfold settle. rewrite Hn. cbn [client inflight].
    rewrite updating_after_callbacks. cbn [continuation].
    split; [|done]. rewrite list_elem_of_filter. intros [Hne _]. by apply Hne.
  - intros rt evs Hempty. apply noStaleEntry_run.
    intros id Hin. rewrite Hempty in Hin. by apply elem_of_nil in Hin.
Qed.
End Tracking.

(** * The theorems at concrete inputs *)

(** C1, the scenario of the specification: [addToCart(P, 1, {Size: S})],
    [addToCart(P, 2, {Size: S})], then [addToCart(P, 1, {Size: M})]. *)
Lemma add_to_cart_scenario :
  let optionsS := Some (ChoicesOption {["Size" := "S"]}) in
  let optionsM := Some (ChoicesOption {["Size" := "M"]}) in
  let twice :=
    cartRun memoryApi shopRuntime
      [AddToCart "P" 1 optionsS NoCallback; Settles 0;
       AddToCart "P" 2 optionsS NoCallback; Settles 0] in
  let thrice :=
    cartRun memoryApi twice [AddToCart "P" 1 optionsM NoCallback; Settles 0] in
  twice.(client).(cartData)
  = Some {| currentCart.lineItems := [lineOf 1 "P" 3 optionsS] |}
  ∧ thrice.(client).(cartData)
    = Some {| currentCart.lineItems :=
                [lineOf 1 "P" 3 optionsS; lineOf 2 "P" 1 optionsM] |}.
Proof.
  intros optionsS optionsM twice thrice.
  assert (Hne : optionsS ≠ Some (ChoicesOption {["Size" := "M"]})).
  { intros H. discriminate H. }
  destruct (proj2 add_to_cart_updates_or_inserts "P" 1 2 1 optionsS
              (ChoicesOption {["Size" := "M"]}) Hne)
    as (H1 & _ & H3 & _).
  split; [exact H1|exact H3].
Defined.

(** C3 on a store without categories: both lookups are made and the
    error of the first one is thrown. *)
Lemma featured_products_fallback_scenario :
  recordingApi.(getFeaturedProducts) "sale" 4 (emptyStore, [])
  = (Rejected
       (ApiErrorObject
          {| code := CategoryNotFound; message := "Category not found" |}),
     (emptyStore,
      [PGetCollectionBySlug "sale"; PGetCollectionBySlug "all-products"])).
Proof.
  destruct (featured_products_fallback messageOf (λ q (_ : unit), q)
              (λ q (_ : unit), q) "stores-app" "https://shop.example"
              memoryClient "sale" 4 emptyStore []
              {| code := CategoryNotFound; message := "Category not found" |}
              (emptyStore, [PGetCollectionBySlug "sale"])
              eq_refl eq_refl)
    as (r & w2 & Hretry & Hresult).
  cbv in Hretry. injection Hretry as <- <-. exact Hresult.
Defined.



(** C5 during an outage: the update is rejected, and the id that was put
    into the set when the update was issued is gone once it settles. *)
Lemma updating_ids_scenario :
  let unreachable :=
    {| client := idleClient None;
       platform := withOutage (ErrorObject "Failed to fetch") emptyStore;
       inflight := [] |} in
  let updating := updateItemQuantity memoryApi "line-1" 2 unreachable in
  updating.(inflight) !! 0%nat
  = Some {| settlesWith :=
              Rejected
                (ApiErrorObject
                   {| code := UpdateCartItemQuantityFailure;
                      message := "Failed to fetch" |});
            continuation := FinallyClearUpdating "line-1" |}
  ∧ updating.(client).(updatingCartItemIds) = ["line-1"]
  ∧ updating.(client).(issued)
    = [(CallUpdateCartItemQuantity (Some "line-1") 2, ["line-1"])]
  ∧ ("line-1" ∉ updatingCartItemIds (client (settle 0 updating)))
  ∧ inflight (settle 0 updating) = [].
Proof.
  intros unreachable updating.
  assert (Hpending :
    updating.(inflight) !! 0%nat
    = Some {| settlesWith :=
                Rejected
                  (ApiErrorObject
                     {| code := UpdateCartItemQuantityFailure;
                        message := "Failed to fetch" |});
              continuation := FinallyClearUpdating "line-1" |})
    by reflexivity.
  destruct (proj1 (proj2 (proj2 (updating_ids_follow_mutations memoryApi)))
              updating 0%nat _ "line-1" Hpending) as [Hgone Hrest].
  split; [exact Hpending|]. split; [reflexivity|]. split; [reflexivity|].
  split; [exact Hgone|exact Hrest].
Defined.

(** C6 on product P before a size is chosen. *)
Lemma add_to_cart_rejected_scenario :
  (initialDetails productP).(selectedChoices) !! "Size" = Some None
  ∧ handleAddToCart memoryApi (λ _ _, None) (λ _ _, ∅) productP
      (initialDetails productP, shopRuntime)
    = ({| selectedChoices := {["Size" := None]};
          quantity := 1;
          addToCartAttempted := true |},
       shopRuntime).
Proof.
  assert (Hunselected :
    (initialDetails productP).(selectedChoices) !! "Size" = Some None)
    by reflexivity.
  split; [exact Hunselected|].
  pose proof (add_to_cart_rejected_while_unselected memoryApi (λ _ _, None)
                (λ _ _, ∅) productP (initialDetails productP) shopRuntime
                "Size" Hunselected) as H.
  destruct (handleAddToCart memoryApi (λ _ _, None) (λ _ _, ∅) productP
              (initialDetails productP, shopRuntime)) as [d' rt'].
  destruct H as (Hflag & -> & _ & Hsel & Hq).
  destruct d' as [sel q flag]. cbn in *. subst. reflexivity.
Defined.

(** C7 with quantity 5 and sizes S and M. *)
Lemma option_change_scenario :
  let before :=
    {| selectedChoices := {["Size" := Some sizeS; "Fit" := Some sizeS]};
       quantity := 5;
       addToCartAttempted := false |} in
  let after := handleOptionChange "Size" sizeM before in
  after.(quantity) = 1
  ∧ after.(selectedChoices) !! "Size" = Some (Some sizeM)
  ∧ after.(selectedChoices) !! "Fit" = Some (Some sizeS).
Proof.
  intros before after.
  destruct (option_change_resets_quantity "Size" sizeM before)
    as (Hq & Hnew & Hother & _).
  split; [exact Hq|]. split; [exact Hnew|].
  exact (Hother "Fit" ltac:(discriminate)).
Defined.


(** * Further properties of the sources *)

(** ** The Gateway, operation by operation *)

(** Case analysis on the scrutinee of an innermost [match]. *)
Ltac split_match :=
  match goal with
  | |- context [match ?x with _ => _ end] =>
      lazymatch x with
      | context [match _ with _ => _ end] => fail
      | _ => destruct x eqn:?
      end
  end.

Ltac split_matches := repeat (split_match; cbn beta iota).

Ltac unfold_gateway :=
  cbn [perform createApi getProducts getProductsByCategory
         getFeaturedProducts getPromotedProducts getProductBySlug getCart
         getCartTotals updateCartItemQuantity removeItemFromCart addToCart
         checkout getAllCategories getCategoryBySlug getOrder
         getProductPriceBounds];
  unfold api_getProducts, api_getFeaturedProducts, api_getPromotedProducts,
    api_getProductBySlug, api_getCart, api_getCartTotals,
    api_updateCartItemQuantity, api_removeItemFromCart, api_addToCart,
    api_checkout, api_getAllCategories, api_getOrder,
    api_getProductPriceBounds;
  unfold api_getProductsByCategory, api_getCategoryBySlug;
  unfold try_catch, bind, ret, throw, promise_all2, queryProducts,
    successResponse, failureResponse.

Section GatewayFurther.
Context {S Filters SortBy : Type}.
Variable getErrorMessage : Exn → string.
Variable getFilteredProductsQuery : ProductsQuery → Filters → ProductsQuery.
Variable getSortedProductsQuery : ProductsQuery → SortBy → ProductsQuery.
Variable WIX_STORES_APP_ID : string.
Variable origin : string.

Abbreviation gatewayOver client :=
  (createApi getErrorMessage getFilteredProductsQuery getSortedProductsQuery
     WIX_STORES_APP_ID origin client).

(** X1.  Eleven operations are one platform call each: whatever the
    platform answers, the operation issues exactly the request listed in
    [platformCallOf] and resolves to a tagged result. *)
Theorem one_call_one_tagged_result (wixClient : WixApiClient S)
    (c : GatewayCall Filters SortBy) (p : PlatformCall) (s : S)
    (j : list PlatformCall) :
  platformCallOf WIX_STORES_APP_ID c = Some p →
  ∃ r s',
    perform (gatewayOver (recording wixClient)) c (s, j)
    = (Resolved r, (s', j ++ [p])).
Proof.
  intros Hp.
  destruct c; cbn in Hp; try discriminate Hp; injection Hp as <-;
    cbn [perform createApi getProducts getPromotedProducts getProductBySlug
           getCart getCartTotals updateCartItemQuantity removeItemFromCart
           addToCart getAllCategories getCategoryBySlug getOrder];
    unfold api_getProducts, api_getPromotedProducts, api_getProductBySlug,
      api_getCart, api_getCartTotals, api_updateCartItemQuantity,
      api_removeItemFromCart, api_addToCart, api_getAllCategories,
      api_getCategoryBySlug, api_getOrder;
    unfold try_catch, bind, ret, throw, recording, recorded, queryProducts;
    cbn [products_find collections_getCollectionBySlug
           collections_queryCollections_find currentCart_getCurrentCart
           currentCart_estimateCurrentCartTotals
           currentCart_updateCurrentCartLineItemQuantity
           currentCart_removeLineItemsFromCurrentCart
           currentCart_addToCurrentCart orders_getOrder app];
    split_matches; simplify_eq; eauto.
Qed.
(** X2.  An operation reports a failure only under the codes of its own
    [failureResponse] calls, listed in [failureCodes]; the only values an
    operation rejects with are the error objects [getFeaturedProducts]
    throws, which carry the codes of the category and product lookups. *)
Theorem failures_carry_own_codes (wixClient : WixApiClient S)
    (c : GatewayCall Filters SortBy) (s s' : S) :
  (∀ error,
     perform (gatewayOver wixClient) c s = (Resolved (FailureResponse error), s')
     → error.(code) ∈ failureCodes c)
  ∧ (∀ e,
       perform (gatewayOver wixClient) c s = (Rejected e, s') →
       ∃ error, e = ApiErrorObject error ∧ error.(code) ∈ failureCodes c).
Proof.
  split; [intros error|intros e];
    destruct c; unfold_gateway; cbn [failureCodes];
    split_matches; intros Heq; simplify_eq; cbn [code];
    try (eexists; split; [reflexivity|]);
    repeat match goal with H : _ = _ |- _ => clear H end;
    set_solver.
Qed.
(** X3.  Absence is a failure code of its own in the three lookups.
    [getCategoryBySlug] and [getOrder] report [CategoryNotFound] and
    [OrderNotFound] exactly when the platform returns nothing or rejects
    with application error 404; [getProductBySlug] reports
    [ProductNotFound] exactly when the query resolves without items (a
    rejected query, 404 included, is a [GetProductFailure]).  Each succeeds
    exactly with what the platform returned. *)
Theorem not_found_codes (wixClient : WixApiClient S) :
  let api := gatewayOver wixClient in
  let absent {A} (o : Outcome (option A)) :=
    o = Resolved None ∨ ∃ msg, o = Rejected (SdkErrorObject 404 msg) in
  (∀ slug s o s1,
     wixClient.(collections_getCollectionBySlug) slug s = (o, s1) →
     ∃ r, api.(getCategoryBySlug) slug s = (Resolved r, s1)
          ∧ (r = failureResponse CategoryNotFound "Category not found"
             ↔ absent o)
          ∧ (∀ found, r = SuccessResponse found ↔ o = Resolved (Some found)))
  ∧ (∀ id s o s1,
       wixClient.(orders_getOrder) id s = (o, s1) →
       ∃ r, api.(getOrder) id s = (Resolved r, s1)
            ∧ (r = failureResponse OrderNotFound "Order not found" ↔ absent o)
            ∧ (∀ found, r = SuccessResponse found ↔ o = Resolved (Some found)))
  ∧ (∀ slug s o s1,
       wixClient.(products_find) [Eq "slug" slug; Limit 1] s = (o, s1) →
       ∃ r, api.(getProductBySlug) slug s = (Resolved r, s1)
            ∧ (r = failureResponse ProductNotFound "Product not found"
               ↔ ∃ found, o = Resolved found ∧ found.(items) = [])
            ∧ (∀ product,
                 r = SuccessResponse product
                 ↔ ∃ found, o = Resolved found
                            ∧ head found.(items) = Some product)).
Proof.
  intros api absent. subst api absent. cbn beta.
  split; [|split]; intros x s o s1 Hcall; unfold_gateway; cbn [app];
    rewrite Hcall.
  - destruct o as [[found|]|e]; cbn beta iota.
    + eexists. split; [reflexivity|]. split; [|naive_solver].
      split; [discriminate|]. intros [|(? & ?)]; discriminate.
    + eexists. split; [reflexivity|]. split; [|naive_solver]. naive_solver.
    + destruct e as [msg|appCode msg|err|repr]; cbn [isEcomSDKError andb];
        try (eexists; split; [reflexivity|];
             split; [|naive_solver];
             split; [discriminate|]; intros [|(? & ?)]; discriminate).
      cbn [applicationErrorCode_of]. case_bool_decide as Hc.
      * injection Hc as ->. eexists. split; [reflexivity|].
        split; [|naive_solver]. naive_solver.
      * eexists. split; [reflexivity|]. split; [|naive_solver].
        split; [discriminate|]. intros [|(? & ?)]; [discriminate|].
        naive_solver.
  - destruct o as [[found|]|e]; cbn beta iota.
    + eexists. split; [reflexivity|]. split; [|naive_solver].
      split; [discriminate|]. intros [|(? & ?)]; discriminate.
    + eexists. split; [reflexivity|]. split; [|naive_solver]. naive_solver.
    + destruct e as [msg|appCode msg|err|repr]; cbn [isEcomSDKError andb];
        try (eexists; split; [reflexivity|];
             split; [|naive_solver];
             split; [discriminate|]; intros [|(? & ?)]; discriminate).
      cbn [applicationErrorCode_of]. case_bool_decide as Hc.
      * injection Hc as ->. eexists. split; [reflexivity|].
        split; [|naive_solver]. naive_solver.
      * eexists. split; [reflexivity|]. split; [|naive_solver].
        split; [discriminate|]. intros [|(? & ?)]; [discriminate|].
        naive_solver.
  - destruct o as [found|e]; cbn beta iota.
    + destruct (items found) as [|product rest] eqn:Hitems; cbn [head].
      * eexists. split; [reflexivity|]. split; [naive_solver|].
        intros product. split; [discriminate|].
        intros (found' & [= <-] & Hhead). rewrite Hitems in Hhead.
        discriminate.
      * eexists. split; [reflexivity|]. split.
        -- split; [discriminate|].
           intros (found' & [= <-] & Hnil). congruence.
        -- intros product'. split.
           ++ intros [= <-]. exists found. by rewrite Hitems.
           ++ intros (found' & [= <-] & Hhead). rewrite Hitems in Hhead.
              naive_solver.
    + eexists. split; [reflexivity|]. split.
      * split; [discriminate|]. intros (? & ? & ?). discriminate.
      * intros product. split; [discriminate|].
        intros (? & ? & ?). discriminate.
Qed.

(** X5.  [getFeaturedProducts] falls back only from [CategoryNotFound]:
    any other failure of the first lookup is thrown at once, after that
    single platform call. *)
Theorem featured_products_no_fallback (wixClient : WixApiClient S)
    (slug : string) (count : Z) (s : S) (j : list PlatformCall)
    (error : EcomApiError) (s1 : S * list PlatformCall) :
  let api := gatewayOver (recording wixClient) in
  api.(getCategoryBySlug) slug (s, j) = (Resolved (FailureResponse error), s1) →
  error.(code) ≠ CategoryNotFound →
  api.(getFeaturedProducts) slug count (s, j)
  = (Rejected (ApiErrorObject error), s1)
  ∧ s1.2 = j ++ [PGetCollectionBySlug slug].
Proof.
  intros api H1 Hcode. subst api.
  cbn [createApi getCategoryBySlug getFeaturedProducts] in *.
  split.
  - unfold api_getFeaturedProducts, bind, ret, throw. rewrite H1.
    cbv beta iota. by destruct (decide (code error = CategoryNotFound)).
  - pose proof (getCategoryBySlug_recording getErrorMessage wixClient slug s j)
      as Hrec.
    rewrite H1 in Hrec.
    destruct (api_getCategoryBySlug getErrorMessage wixClient slug s).
    by injection Hrec as _ ->.
Qed.

(** X6.  When the requested category exists, [getFeaturedProducts] makes
    three platform calls: the lookup of the slug, a second lookup (by
    [getProductsByCategory]) of the slug of the category found, and one
    product query on the category of the second lookup, skipping 0 and
    limited to [count].  It returns the category of the first lookup with
    the items of that query. *)
Theorem featured_products_of_found_category (wixClient : WixApiClient S)
    (slug : string) (count : Z) (s : S) (j : list PlatformCall)
    (category again : collections.Collection) (found : ProductsQueryResult)
    (s1 s2 s3 : S) :
  let query :=
    [HasSome "collectionIds" [again.(collections._id)];
     Skip 0; Limit count] in
  wixClient.(collections_getCollectionBySlug) slug s
  = (Resolved (Some category), s1) →
  wixClient.(collections_getCollectionBySlug) category.(collections.slug) s1
  = (Resolved (Some again), s2) →
  wixClient.(products_find) query s2 = (Resolved found, s3) →
  (gatewayOver (recording wixClient)).(getFeaturedProducts) slug count (s, j)
  = (Resolved
       (SuccessResponse
          {| category := category; featured_items := found.(items) |}),
     (s3, j ++ [PGetCollectionBySlug slug;
                PGetCollectionBySlug category.(collections.slug);
                PFind query])).
Proof.
  intros query H1 H2 H3. subst query. unfold_gateway.
  cbn [recording collections_getCollectionBySlug products_find skip limit
         filters sortBy default app].
  unfold recorded. rewrite H1. cbn beta iota. rewrite H2. cbn beta iota.
  change (id count) with count. rewrite H3. cbn beta iota. rewrite <- !app_assoc. reflexivity.
Qed.

(** X7.  [checkout] asks for a redirect session only after the checkout
    was created: a rejected creation is the only platform call made;
    otherwise the second call asks for a session for the checkout id just
    returned, with the page origin and its [/thank-you] page as
    callbacks. *)
Theorem checkout_platform_calls (wixClient : WixApiClient S) (s : S)
    (j : list PlatformCall) :
  let api := gatewayOver (recording wixClient) in
  let created := PCreateCheckoutFromCurrentCart currentCart.WEB in
  (∀ e s1,
     wixClient.(currentCart_createCheckoutFromCurrentCart) currentCart.WEB s
     = (Rejected e, s1) →
     api.(checkout) (s, j)
     = (Resolved (failureResponse CreateCheckoutFailure (getErrorMessage e)),
        (s1, j ++ [created])))
  ∧ (∀ checkoutId s1,
       wixClient.(currentCart_createCheckoutFromCurrentCart) currentCart.WEB s
       = (Resolved checkoutId, s1) →
       ∃ r s2,
         api.(checkout) (s, j)
         = (Resolved r,
            (s2, j ++ [created;
                       PCreateRedirectSession
                         {| redirects.checkoutId := checkoutId;
                            redirects.postFlowUrl := origin;
                            redirects.thankYouPageUrl :=
                              origin +:+ "/thank-you" |}]))).
Proof.
  intros api created. subst api created. split.
  - intros e s1 H. unfold_gateway.
    cbn [recording currentCart_createCheckoutFromCurrentCart].
    unfold recorded. rewrite H. reflexivity.
  - intros checkoutId s1 H. unfold_gateway.
    cbn [recording currentCart_createCheckoutFromCurrentCart
           redirects_createRedirectSession].
    unfold recorded. rewrite H. cbn beta iota.
    rewrite <- !app_assoc. cbn [app].
    split_matches; simplify_eq; eauto.
Qed.


End GatewayFurther.

(** ** The client id *)

(** X10.  [getWixClientId] reads one environment only.  Once [window.ENV]
    is set, [process.env] is not consulted: an [ENV] without
    [WIX_CLIENT_ID] gives the demo id whatever [process.env] holds.  And
    [??] keeps an empty id: an environment that sets [WIX_CLIENT_ID] to
    the empty string gets the empty string, not the demo id. *)
Theorem client_id_reads_one_environment (DEMO_STORE_WIX_CLIENT_ID : string)
    (ENV : gmap string string) (process : option (gmap string string)) :
  let g := {| window_ENV := Some (Some ENV); process_env := process |} in
  (ENV !! "WIX_CLIENT_ID" = None →
   getWixClientId DEMO_STORE_WIX_CLIENT_ID g = DEMO_STORE_WIX_CLIENT_ID)
  ∧ (ENV !! "WIX_CLIENT_ID" = Some "" →
     getWixClientId DEMO_STORE_WIX_CLIENT_ID g = "")
  ∧ (∀ window,
       window = None ∨ window = Some None →
       getWixClientId DEMO_STORE_WIX_CLIENT_ID
         {| window_ENV := window; process_env := process |}
       = default DEMO_STORE_WIX_CLIENT_ID
           (process ≫= λ env, env !! "WIX_CLIENT_ID")).
Proof.
  cbn zeta. unfold getWixClientId. cbn [window_ENV process_env].
  split; [by intros ->|]. split; [by intros ->|].
  intros window [->| ->]; destruct process as [env|]; cbn; try done.
Qed.

(** ** The cart hooks: composition and interleavings *)

Section HooksFurther.
Context {S Filters SortBy : Type}.
Variable ecomApi : EcomAPI S Filters SortBy.

(** X11.  Once no mutation is in flight, no id is left in
    [updatingCartItemIds], whatever updates, removals, adds and
    settlements happened since the set was empty. *)
Theorem updating_ids_empty_when_idle (rt : Runtime S Filters SortBy)
    (evs : list CartEvent) :
  rt.(client).(updatingCartItemIds) = [] →
  inflight (cartRun ecomApi rt evs) = [] →
  updatingCartItemIds (client (cartRun ecomApi rt evs)) = [].
Proof.
  intros Hempty Hidle.
  assert (Hinv : noStaleEntry (cartRun ecomApi rt evs)).
  { apply noStaleEntry_run. intros id Hin. rewrite Hempty in Hin.
    by apply elem_of_nil in Hin. }
  destruct (updatingCartItemIds (client (cartRun ecomApi rt evs)))
    as [|id ids] eqn:Hids; [done|].
  destruct (Hinv id) as (p & Hp & _).
  - rewrite Hids. by left.
  - rewrite Hidle in Hp. by apply elem_of_nil in Hp.
Qed.

(** X12.  The [finally] callback removes every occurrence of the id.
    With two updates of one item in flight, the settlement of the first
    takes the id out of [updatingCartItemIds] while the second update is
    still in flight. *)
Theorem first_settlement_clears_the_id (rt : Runtime S Filters SortBy)
    (id : string) (q1 q2 : Z) :
  let both :=
    updateItemQuantity ecomApi id q2 (updateItemQuantity ecomApi id q1 rt) in
  let settled := settle (length rt.(inflight)) both in
  (id ∉ updatingCartItemIds (client settled))
  ∧ ∃ outcome,
      inflight settled
      = rt.(inflight)
        ++ [{| settlesWith := outcome;
               continuation := FinallyClearUpdating id |}].
Proof.
  intros both settled. subst settled both.
  destruct (updateItemQuantity_run ecomApi id q1 rt) as (o1 & s1 & ->).
  destruct (updateItemQuantity_run ecomApi id q2
              {| client :=
                   journal (CallUpdateCartItemQuantity (Some id) q1)
                     (setUpdatingCartItems (λ prev, prev ++ [id]) rt.(client));
                 platform := s1;
                 inflight :=
                   rt.(inflight)
                   ++ [{| settlesWith := o1;
                          continuation := FinallyClearUpdating id |}] |})
    as (o2 & s2 & ->).
  cbn [client inflight]. unfold settle. cbn [inflight client platform].
  rewrite <- app_assoc. cbn [app].
  rewrite list_lookup_middle by done. rewrite delete_middle.
  cbn [client inflight]. rewrite updating_after_callbacks.
  cbn [continuation]. split; [|by eexists].
  rewrite list_elem_of_filter. intros [Hne _]. by apply Hne.
Qed.

(** X13.  The add-to-cart fetcher decides from the cached cart, which
    changes only when a mutation settles.  Two adds of one combination
    triggered before the first settles both find no match, and both are
    sent as inserts. *)
Theorem adds_before_settlement_both_insert (rt : Runtime S Filters SortBy)
    (productId : string) (q1 q2 : Z) (options : option AddToCartOptions)
    (k1 k2 : Continuation) :
  match rt.(client).(cartData) with
  | Some cart => findItemIdInCart cart productId options
  | None => None
  end = None →
  let twice :=
    addToCart_ ecomApi productId q2 options k2
      (addToCart_ ecomApi productId q1 options k1 rt) in
  twice.(client).(issued).*1
  = rt.(client).(issued).*1
    ++ [CallAddToCart productId q1 options;
        CallAddToCart productId q2 options]
  ∧ twice.(client).(cartData) = rt.(client).(cartData)
  ∧ length twice.(inflight) = Datatypes.S (Datatypes.S (length rt.(inflight))).
Proof.
  intros Hfind twice.
  destruct (addToCartFetcher_insert ecomApi rt.(client).(cartData)
              {| arg_id := productId; arg_quantity := q1;
                 arg_options := options |}
              rt.(client) rt.(platform) Hfind) as (o1 & s1 & H1).
  cbn [arg_id arg_quantity arg_options] in H1.
  destruct (addToCartFetcher_insert ecomApi rt.(client).(cartData)
              {| arg_id := productId; arg_quantity := q2;
                 arg_options := options |}
              (journal (CallAddToCart productId q1 options) rt.(client))
              s1 Hfind) as (o2 & s2 & H2).
  cbn [arg_id arg_quantity arg_options] in H2.
  assert (Htwice :
    twice
    = {| client :=
           journal (CallAddToCart productId q2 options)
             (journal (CallAddToCart productId q1 options) rt.(client));
         platform := s2;
         inflight :=
           (rt.(inflight) ++ [{| settlesWith := o1; continuation := k1 |}])
           ++ [{| settlesWith := o2; continuation := k2 |}] |}).
  { subst twice.
    assert (Hfirst :
      addToCart_ ecomApi productId q1 options k1 rt
      = {| client := journal (CallAddToCart productId q1 options) rt.(client);
           platform := s1;
           inflight :=
             rt.(inflight) ++ [{| settlesWith := o1; continuation := k1 |}] |})
      by (unfold addToCart_, trigger; by rewrite H1).
    rewrite Hfirst. unfold addToCart_, trigger.
    cbn [client platform inflight journal cartData]. by rewrite H2. }
  rewrite Htwice. cbn [client inflight journal issued cartData].
  rewrite !fmap_app, !length_app. cbn. split; [|split]; [|done|lia].
  by rewrite <- app_assoc.
Qed.
End HooksFurther.

(** ** The hooks over the Gateway of [createApi] *)

Section Composition.
Context {S Filters SortBy : Type}.
Variable getErrorMessage : Exn → string.
Variable getFilteredProductsQuery : ProductsQuery → Filters → ProductsQuery.
Variable getSortedProductsQuery : ProductsQuery → SortBy → ProductsQuery.
Variable WIX_STORES_APP_ID : string.
Variable origin : string.
Variable wixClient : WixApiClient S.

Abbreviation theGateway :=
  (createApi getErrorMessage getFilteredProductsQuery getSortedProductsQuery
     WIX_STORES_APP_ID origin wixClient).

(** X14.  Over the Gateway of [createApi], a cart fetcher rejects only
    with a tagged error, and the code is that of the operation it called:
    whatever the platform threw has been turned into [{code, message}]
    before it reaches the caller of the hook. *)
Theorem cart_fetchers_reject_with_tagged_errors (cl : Client Filters SortBy)
    (s : S) :
  let tagged (e : Exn) (c : EcomApiErrorCodes) :=
    ∃ msg, e = ApiErrorObject {| code := c; message := msg |} in
  (∀ e st', cartDataFetcher theGateway (cl, s) = (Rejected e, st') →
            tagged e GetCartFailure)
  ∧ (∀ e st', cartTotalsFetcher theGateway (cl, s) = (Rejected e, st') →
              tagged e GetCartTotalsFailure)
  ∧ (∀ id quantity e st',
       updateCartItemQuantityFetcher theGateway id quantity (cl, s)
       = (Rejected e, st') →
       tagged e UpdateCartItemQuantityFailure)
  ∧ (∀ id e st',
       removeItemFromCartFetcher theGateway id (cl, s) = (Rejected e, st') →
       tagged e RemoveCartItemFailure)
  ∧ (∀ cart arg e st',
       addToCartFetcher theGateway cart arg (cl, s) = (Rejected e, st') →
       tagged e UpdateCartItemQuantityFailure ∨ tagged e AddCartItemFailure).
Proof.
  intros tagged. subst tagged. cbn beta.
  repeat split; intros *;
    unfold cartDataFetcher, cartTotalsFetcher, updateCartItemQuantityFetcher,
      removeItemFromCartFetcher, addToCartFetcher, gateway;
    unfold_gateway; split_matches; intros Heq; simplify_eq; eauto.
Qed.

(** X15.  [checkout] of [useCart] over the Gateway of [createApi] never
    rejects and does one of two things.  Either it navigates: the new
    [location.href] is the non-empty [fullUrl] of the redirect session the
    platform returned, and no alert is raised.  Or it stays on the page
    and raises the one alert ['checkout is not configured'], whatever the
    failure was. *)
Theorem checkout_navigates_or_alerts (b : Browser) (s : S) :
  (∃ checkoutId s1 session s',
     wixClient.(currentCart_createCheckoutFromCurrentCart) currentCart.WEB s
     = (Resolved checkoutId, s1)
     ∧ wixClient.(redirects_createRedirectSession)
         {| redirects.checkoutId := checkoutId;
            redirects.postFlowUrl := origin;
            redirects.thankYouPageUrl := origin +:+ "/thank-you" |} s1
       = (Resolved (Some session), s')
     ∧ ∃ url,
         session.(redirects.fullUrl) = Some url ∧ url ≠ ""
         ∧ useCart_checkout theGateway (b, s)
           = (Resolved tt,
              ({| location_href := url; alerts := b.(alerts) |}, s')))
  ∨ (∃ s',
       useCart_checkout theGateway (b, s)
       = (Resolved tt,
          ({| location_href := b.(location_href);
              alerts := b.(alerts) ++ ["checkout is not configured"] |},
           s'))).
Proof.
  unfold useCart_checkout. unfold_gateway.
  destruct (currentCart_createCheckoutFromCurrentCart wixClient _ s)
    as [[checkoutId|e] s1] eqn:H1; cbn beta iota; [|right; eauto].
  destruct (redirects_createRedirectSession wixClient _ s1)
    as [[session|e] s2] eqn:H2; cbn beta iota; [|right; eauto].
  destruct session as [[[url|]]|]; cbn; [|right; eauto..].
  destruct (decide (url = "")) as [->|Hurl]; [right; eauto|].
  left. exists checkoutId, s1, {| redirects.fullUrl := Some url |}, s2.
  split; [done|]. split; [done|]. exists url. done.
Qed.
End Composition.

(** ** Product details: the selection and the add-to-cart handler *)

Lemma assign_all_is_Some options result name :
  is_Some (foldl assignInitialChoice result options !! name)
  ↔ is_Some (result !! name)
    ∨ (name ≠ "" ∧ ∃ o, o ∈ options ∧ o.(products.name) = Some name).
Proof.
  revert result. induction options as [|o options IH]; intros result; cbn.
  - split; [by left|]. intros [H|(_ & o & Ho & _)]; [done|].
    by apply elem_of_nil in Ho.
  - rewrite IH. split.
    + intros [H|(Hne & o' & Ho' & Hname)].
      * destruct (decide (products.name o = Some name)) as [Hname|Hname].
        -- unfold assignInitialChoice in H. rewrite Hname in H.
           destruct (truthy (Some name)) eqn:Ht; [|by left].
           apply truthy_nonempty in Ht. right. split; [done|].
           exists o. split; [by left|done].
        -- rewrite assign_lookup_other in H by done. by left.
      * right. split; [done|]. exists o'. split; [by right|done].
    + intros [H|(Hne & o' & Ho' & Hname)].
      * left. destruct (decide (products.name o = Some name)) as [Hname|Hname].
        -- unfold assignInitialChoice. rewrite Hname.
           destruct (truthy (Some name)); [|done].
           rewrite lookup_insert_eq. by eexists.
        -- by rewrite assign_lookup_other.
      * apply elem_of_cons in Ho' as [->|Ho'].
        -- left. rewrite (assign_lookup_named result o name) by done.
           by eexists.
        -- right. split; [done|]. by exists o'.
Qed.

Lemma initial_selection_is_Some (product : products.Product) (name : string) :
  is_Some (getInitialSelectedChoices product !! name)
  ↔ name ≠ ""
    ∧ ∃ o, o ∈ default [] product.(products.productOptions)
           ∧ o.(products.name) = Some name.
Proof.
  unfold getInitialSelectedChoices. rewrite assign_all_is_Some.
  rewrite lookup_empty. split; [|by right].
  intros [H|H]; [|done]. by destruct H.
Qed.


Lemma option_changes_lookup (picks : list (string * products.Choice))
    (d : Details) (name : string) :
  (name ∈ picks.*1 ∧
   ∃ choice,
     selectedChoices (foldl (λ d p, handleOptionChange p.1 p.2 d) d picks)
       !! name = Some (Some choice))
  ∨ ((name ∉ picks.*1) ∧
     selectedChoices (foldl (λ d p, handleOptionChange p.1 p.2 d) d picks)
       !! name = d.(selectedChoices) !! name).
Proof.
  revert d. induction picks as [|[n c] picks IH]; intros d; cbn.
  - right. split; [apply not_elem_of_nil|done].
  - destruct (IH (handleOptionChange n c d)) as [[Hin H]|[Hnin H]].
    + left. split; [by right|done].
    + destruct (decide (name = n)) as [->|Hne].
      * left. split; [by left|]. exists c. rewrite H. cbn.
        apply lookup_insert_eq.
      * right. split.
        -- intros Hin. apply elem_of_cons in Hin as [?|?]; done.
        -- rewrite H. cbn. by apply lookup_insert_ne.
Qed.

(** X17.  Once every option of the selection has been chosen through
    [handleOptionChange], in any order and however often, no entry is
    undefined any more, so add-to-cart is no longer held back; the
    quantity is then 1. *)
Theorem choosing_every_option_completes_selection
    (picks : list (string * products.Choice)) (d : Details) :
  (∀ name, is_Some (d.(selectedChoices) !! name) → name ∈ picks.*1) →
  picks ≠ [] →
  let chosen := foldl (λ d p, handleOptionChange p.1 p.2 d) d picks in
  includes_undefined (Object_values chosen.(selectedChoices)) = false
  ∧ chosen.(quantity) = 1
  ∧ chosen.(addToCartAttempted) = d.(addToCartAttempted).
Proof.
  intros Hall Hpicks chosen. subst chosen. split; [|split].
  - apply includes_undefined_none. intros name v Hv.
    destruct (option_changes_lookup picks d name) as [[_ (c & H)]|[Hnin H]].
    + rewrite H in Hv. by injection Hv as <-.
    + rewrite H in Hv. destruct Hnin. apply Hall. by eexists.
  - destruct picks as [|p picks _] using rev_ind; [done|].
    by rewrite foldl_app.
  - clear Hall Hpicks. revert d.
    induction picks as [|p picks IH]; intros d; [done|].
    cbn. by rewrite IH.
Qed.

Section ProductDetailsFurther.
Context {S Filters SortBy : Type}.
Variable ecomApi : EcomAPI S Filters SortBy.
Variable getSelectedVariant :
  products.Product → gmap string (option products.Choice)
  → option products.Variant.
Variable selectedChoicesToVariantChoices :
  products.Product → gmap string (option products.Choice)
  → gmap string string.

Lemma handleAddToCart_complete (product : products.Product)
    (d : Details) (rt : Runtime S Filters SortBy) :
  includes_undefined (Object_values d.(selectedChoices)) = false →
  let '(d', rt') :=
    handleAddToCart ecomApi getSelectedVariant
      selectedChoicesToVariantChoices product (d, rt) in
  d' = {| selectedChoices := d.(selectedChoices);
          quantity := d.(quantity);
          addToCartAttempted := true |}
  ∧ ∃ call outcome,
      rt'.(client).(issued)
      = rt.(client).(issued) ++ [(call, rt.(client).(updatingCartItemIds))]
      ∧ ((∃ options,
            call = CallAddToCart product.(products._id) d.(quantity)
                     (Some options))
         ∨ (∃ id existing,
              call = CallUpdateCartItemQuantity id
                       (existing + d.(quantity))))
      ∧ rt'.(inflight)
        = rt.(inflight)
          ++ [{| settlesWith := outcome; continuation := ThenOpenCart |}]
      ∧ let settled := settle (length rt.(inflight)) rt' in
        match outcome with
        | Resolved cart =>
            settled.(client).(cartData) = Some cart
            ∧ settled.(client).(cartIsOpen) = true
        | Rejected _ =>
            settled.(client).(cartData) = rt.(client).(cartData)
            ∧ settled.(client).(cartIsOpen) = rt.(client).(cartIsOpen)
        end.
Proof.
  intros Hcomplete. unfold handleAddToCart. rewrite Hcomplete.
  set (options :=
         match products.manageVariants product,
               getSelectedVariant product (selectedChoices d)
               ≫= products.variant_id with
         | Some true, Some id =>
             if truthy (Some id) then VariantIdOption id
             else ChoicesOption
                    (selectedChoicesToVariantChoices product
                       (selectedChoices d))
         | _, _ =>
             ChoicesOption
               (selectedChoicesToVariantChoices product (selectedChoices d))
         end).
  split; [done|]. unfold addToCart_, trigger.
  set (arg := {| arg_id := products._id product;
                 arg_quantity := quantity d;
                 arg_options := Some options |}).
  assert (Hrun : ∃ call outcome s',
    addToCartFetcher ecomApi rt.(client).(cartData) arg
      (rt.(client), rt.(platform))
    = (outcome, (journal call rt.(client), s'))
    ∧ ((∃ options,
          call = CallAddToCart product.(products._id) d.(quantity)
                   (Some options))
       ∨ (∃ id existing,
            call = CallUpdateCartItemQuantity id (existing + d.(quantity))))).
  { destruct (match rt.(client).(cartData) with
              | Some cart => findItemIdInCart cart arg.(arg_id) arg.(arg_options)
              | None => None
              end) as [item|] eqn:Hfind.
    - destruct (cartData (client rt)) as [cart|] eqn:Hcart; [|done].
      destruct (addToCartFetcher_update ecomApi cart arg item
                  rt.(client) rt.(platform) Hfind) as (outcome & s' & H).
      eauto 10.
    - destruct (addToCartFetcher_insert ecomApi rt.(client).(cartData) arg
                  rt.(client) rt.(platform) Hfind) as (outcome & s' & H).
      eauto 10. }
  destruct Hrun as (call & outcome & s' & -> & Hcall).
  exists call, outcome. cbn [client inflight journal issued].
  split; [done|]. split; [done|]. split; [done|].
  unfold settle. cbn [inflight client platform].
  rewrite list_lookup_middle by done.
  cbn [client settlesWith continuation].
  destruct outcome; done.
Qed.


(** X19.  Options without a usable name never hold add-to-cart back.  If
    no option of the product has a non-empty name, the initial selection
    is empty, and [handleAddToCart] on the fresh page starts a mutation,
    however many choices those options have. *)
Theorem unnamed_options_do_not_block (product : products.Product)
    (rt : Runtime S Filters SortBy) :
  (∀ o, o ∈ default [] product.(products.productOptions) →
        o.(products.name) = None ∨ o.(products.name) = Some "") →
  getInitialSelectedChoices product = ∅
  ∧ length
      (handleAddToCart ecomApi getSelectedVariant
         selectedChoicesToVariantChoices product
         (initialDetails product, rt)).2.(inflight)
    = Datatypes.S (length rt.(inflight)).
Proof.
  intros Hunnamed.
  assert (Hempty : getInitialSelectedChoices product = ∅).
  { apply map_eq. intros name. rewrite lookup_empty.
    apply eq_None_not_Some. rewrite initial_selection_is_Some.
    intros (Hne & o & Ho & Hname).
    destruct (Hunnamed o Ho) as [H|H]; rewrite H in Hname; naive_solver. }
  split; [done|].
  assert (Hcomplete :
    includes_undefined
      (Object_values (initialDetails product).(selectedChoices)) = false).
  { unfold initialDetails. cbn [selectedChoices]. by rewrite Hempty. }
  pose proof (handleAddToCart_complete product
                (initialDetails product) rt Hcomplete) as H.
  destruct (handleAddToCart _ _ _ _ _) as [d' rt'].
  destruct H as (_ & call & outcome & _ & _ & Hinflight & _).
  cbn [snd]. rewrite Hinflight, length_app. cbn. lia.
Qed.
End ProductDetailsFurther.

(** ** The accordion *)

Section AccordionFacts.
Context {ReactNode : Type}.

(** X20.  The accordion shows at most the one item its state names.
    After a click on the header of item [index] (with a render between
    clicks) the row of item [k] is expanded exactly when [k] is [index]
    and that item was closed before: a click on a closed item opens it
    and closes any other, a click on the open item closes it.  The toggle
    icon is the minus sign on the expanded row and the plus sign on all
    others, and the first item is the one open initially. *)
Theorem accordion_click_opens_one_item (items : list (AccordionItem ReactNode))
    (openItemIndex : option nat) (index k : nat) (row : AccordionRow ReactNode) :
  renderAccordion items (clickHeader index openItemIndex) !! k = Some row →
  row.(row_expanded)
  = bool_decide (k = index) && negb (isOpen openItemIndex index)
  ∧ row.(row_icon) = (if row.(row_expanded) then MinusIcon else PlusIcon)
  ∧ (∀ k' row',
       renderAccordion items (clickHeader index openItemIndex) !! k'
       = Some row' →
       row.(row_expanded) = true → row'.(row_expanded) = true → k' = k)
  ∧ (∀ first,
       renderAccordion items initialOpenItemIndex !! k = Some first →
       first.(row_expanded) = bool_decide (k = 0%nat)).
Proof.
  unfold renderAccordion. rewrite !list_lookup_imap.
  intros Hrow. destruct (items !! k) as [item|] eqn:Hitem; [|done].
  injection Hrow as <-. cbn [row_expanded row_icon].
  assert (Hopen : ∀ n,
    isOpen (clickHeader index openItemIndex) n
    = bool_decide (n = index) && negb (isOpen openItemIndex index)).
  { intros n. unfold clickHeader, isOpen.
    destruct (bool_decide (openItemIndex = Some index)) eqn:Hb; cbn.
    - rewrite andb_false_r. by apply bool_decide_eq_false_2.
    - rewrite andb_true_r. apply bool_decide_ext. naive_solver. }
  split; [apply Hopen|]. split; [done|]. split.
  - intros k' row'. rewrite list_lookup_imap.
    destruct (items !! k') as [item'|]; [|done].
    intros [= <-]. cbn [row_expanded]. rewrite !Hopen.
    intros [Hk _]%andb_true_iff [Hk' _]%andb_true_iff.
    apply bool_decide_eq_true_1 in Hk, Hk'. congruence.
  - intros first [= <-].
    cbn [row_expanded]. unfold isOpen, initialOpenItemIndex.
    apply bool_decide_ext. naive_solver.
Qed.
End AccordionFacts.

(** ** Paging of the category query *)

Section CategoryQuery.
Context {S Filters SortBy : Type}.
Variable getErrorMessage : Exn → string.
Variable getFilteredProductsQuery : ProductsQuery → Filters → ProductsQuery.
Variable getSortedProductsQuery : ProductsQuery → SortBy → ProductsQuery.
Variable WIX_STORES_APP_ID : string.
Variable origin : string.

(** X21.  For a category the platform returns, [getProductsByCategory]
    makes the lookup and a single product query: the category filter,
    decorated by the filters and then by the sort order when given, with
    skip and limit applied last (0 and 100 when omitted).  It returns the
    items of the answer and its total count, 0 when the platform gives
    none. *)
Theorem products_by_category_query (wixClient : WixApiClient S)
    (slug : string) (params : ByCategoryParams Filters SortBy) (s : S)
    (j : list PlatformCall) (category : collections.Collection)
    (found : ProductsQueryResult) (s1 s2 : S) :
  let scoped := [HasSome "collectionIds" [category.(collections._id)]] in
  let filtered :=
    match params.(filters) with
    | Some f => getFilteredProductsQuery scoped f
    | None => scoped
    end in
  let sorted :=
    match params.(sortBy) with
    | Some o => getSortedProductsQuery filtered o
    | None => filtered
    end in
  let query :=
    sorted ++ [Skip (default 0 params.(skip));
               Limit (default 100 params.(limit))] in
  wixClient.(collections_getCollectionBySlug) slug s
  = (Resolved (Some category), s1) →
  wixClient.(products_find) query s1 = (Resolved found, s2) →
  (createApi getErrorMessage getFilteredProductsQuery getSortedProductsQuery
     WIX_STORES_APP_ID origin
     (recording wixClient)).(getProductsByCategory) slug params (s, j)
  = (Resolved
       (SuccessResponse
          {| page_items := found.(items);
             page_totalCount :=
               match found.(totalCount) with
               | Some n => n
               | None => 0
               end |}),
     (s2, j ++ [PGetCollectionBySlug slug; PFind query])).
Proof.
  intros scoped filtered sorted query H1 H2.
  subst query sorted filtered scoped. unfold_gateway.
  cbn [recording collections_getCollectionBySlug products_find app] in *.
  unfold recorded. rewrite H1. cbn beta iota.
  cbn [app]. rewrite H2. cbn beta iota. rewrite <- app_assoc.
  destruct (totalCount found); reflexivity.
Qed.
End CategoryQuery.

(** * The further properties at concrete inputs *)

(** X1 for [getProductBySlug] on the store of the price scenario. *)
Lemma one_call_scenario :
  ∃ r s',
    perform recordingApi (CallGetProductBySlug "a") (saleStore, [])
    = (Resolved r, (s', [PFind [Eq "slug" "a"; Limit 1]])).
Proof.
  exact (one_call_one_tagged_result messageOf (λ q (_ : unit), q)
           (λ q (_ : unit), q) "stores-app" "https://shop.example"
           memoryClient (CallGetProductBySlug "a") _ saleStore [] eq_refl).
Defined.

(** X2 for a product slug the store does not have. *)
Lemma failure_codes_scenario :
  perform memoryApi (CallGetProductBySlug "zzz") saleStore
  = (Resolved (failureResponse ProductNotFound "Product not found"),
     saleStore)
  ∧ ProductNotFound
    ∈ failureCodes (Filters:=unit) (SortBy:=unit) (CallGetProductBySlug "zzz").
Proof.
  split; [reflexivity|].
  exact (proj1 (failures_carry_own_codes messageOf (λ q (_ : unit), q)
                  (λ q (_ : unit), q) "stores-app" "https://shop.example"
                  memoryClient (CallGetProductBySlug "zzz")
                  saleStore saleStore)
           {| code := ProductNotFound; message := "Product not found" |}
           eq_refl).
Defined.

(** X3 on a store without categories: the 404 of the platform is
    [CategoryNotFound]. *)
Lemma not_found_scenario :
  memoryApi.(getCategoryBySlug) "sale" emptyStore
  = (Resolved (failureResponse CategoryNotFound "Category not found"),
     emptyStore).
Proof.
  destruct (proj1 (not_found_codes messageOf (λ q (_ : unit), q)
                     (λ q (_ : unit), q) "stores-app" "https://shop.example"
                     memoryClient)
              "sale" emptyStore
              (Rejected (SdkErrorObject 404 "collection not found"))
              emptyStore eq_refl) as (r & Hr & Habsent & _).
  rewrite <- (proj2 Habsent); [exact Hr|].
  right. by eexists.
Defined.


(** X5 on a platform that cannot be reached. *)
Lemma no_fallback_scenario :
  (gatewayFor (recording offlineClient)).(getFeaturedProducts) "sale" 4 (tt, [])
  = (Rejected
       (ApiErrorObject
          {| code := GetCategoryFailure; message := "Failed to fetch" |}),
     (tt, [PGetCollectionBySlug "sale"])).
Proof.
  exact (proj1 (featured_products_no_fallback messageOf (λ q (_ : unit), q)
                  (λ q (_ : unit), q) "stores-app" "https://shop.example"
                  offlineClient "sale" 4 tt []
                  {| code := GetCategoryFailure;
                     message := "Failed to fetch" |}
                  (tt, [PGetCollectionBySlug "sale"])
                  eq_refl ltac:(discriminate))).
Defined.

(** X6 on the store of the price scenario, for two featured products. *)
Lemma featured_products_scenario :
  recordingApi.(getFeaturedProducts) "sale" 2 (saleStore, [])
  = (Resolved
       (SuccessResponse
          {| category :=
               {| collections._id := Some "c-sale";
                  collections.slug := "sale" |};
             featured_items :=
               [pricedProduct "a" "c-sale" 10%Q;
                pricedProduct "b" "c-sale" 25%Q] |}),
     (saleStore,
      [PGetCollectionBySlug "sale"; PGetCollectionBySlug "sale";
       PFind [HasSome "collectionIds" [Some "c-sale"]; Skip 0; Limit 2]])).
Proof.
  exact (featured_products_of_found_category messageOf (λ q (_ : unit), q)
           (λ q (_ : unit), q) "stores-app" "https://shop.example"
           memoryClient "sale" 2 saleStore []
           {| collections._id := Some "c-sale"; collections.slug := "sale" |}
           {| collections._id := Some "c-sale"; collections.slug := "sale" |}
           (runQuery saleStore
              [HasSome "collectionIds" [Some "c-sale"]; Skip 0; Limit 2])
           saleStore saleStore saleStore eq_refl eq_refl eq_refl).
Defined.

(** X7 on a platform that cannot be reached: one call, no redirect
    session. *)
Lemma checkout_calls_scenario :
  (gatewayFor (recording offlineClient)).(checkout) (tt, [])
  = (Resolved (failureResponse CreateCheckoutFailure "Failed to fetch"),
     (tt, [PCreateCheckoutFromCurrentCart currentCart.WEB])).
Proof.
  exact (proj1 (checkout_platform_calls messageOf (λ q (_ : unit), q)
                  (λ q (_ : unit), q) "stores-app" "https://shop.example"
                  offlineClient tt [])
           (ErrorObject "Failed to fetch") tt eq_refl).
Defined.



(** X10 with an [ENV] that lacks the id while [process.env] has one. *)
Lemma client_id_scenario :
  getWixClientId "demo-client"
    {| window_ENV := Some (Some ∅);
       process_env := Some {["WIX_CLIENT_ID" := "from-process"]} |}
  = "demo-client".
Proof.
  exact (proj1 (client_id_reads_one_environment "demo-client" ∅
                  (Some {["WIX_CLIENT_ID" := "from-process"]}))
           eq_refl).
Defined.

(** X11 after an update and a removal that have both settled. *)
Lemma idle_scenario :
  updatingCartItemIds
    (client
       (cartRun memoryApi shopRuntime
          [UpdateItemQuantity "line-1" 2; RemoveItem "line-9";
           Settles 1; Settles 0]))
  = [].
Proof.
  exact (updating_ids_empty_when_idle memoryApi shopRuntime
           [UpdateItemQuantity "line-1" 2; RemoveItem "line-9";
            Settles 1; Settles 0]
           eq_refl eq_refl).
Defined.

(** X13 on the empty cart: two adds of one combination, none settled. *)
Lemma double_add_scenario :
  let optionsS := Some (ChoicesOption {["Size" := "S"]}) in
  let twice :=
    addToCart_ memoryApi "P" 2 optionsS NoCallback
      (addToCart_ memoryApi "P" 1 optionsS NoCallback shopRuntime) in
  twice.(client).(issued).*1
  = [CallAddToCart "P" 1 optionsS; CallAddToCart "P" 2 optionsS]
  ∧ twice.(client).(cartData) = Some {| currentCart.lineItems := [] |}
  ∧ length twice.(inflight) = 2%nat.
Proof.
  exact (adds_before_settlement_both_insert memoryApi shopRuntime "P" 1 2
           (Some (ChoicesOption {["Size" := "S"]})) NoCallback NoCallback
           eq_refl).
Defined.

(** X14 during an outage: the error of the platform arrives tagged. *)
Lemma tagged_rejection_scenario :
  updateCartItemQuantityFetcher memoryApi "line-1" 2
    (idleClient None, withOutage (ErrorObject "Failed to fetch") emptyStore)
  = (Rejected
       (ApiErrorObject
          {| code := UpdateCartItemQuantityFailure;
             message := "Failed to fetch" |}),
     (journal (CallUpdateCartItemQuantity (Some "line-1") 2) (idleClient None),
      withOutage (ErrorObject "Failed to fetch") emptyStore))
  ∧ ∃ msg,
      ApiErrorObject
        {| code := UpdateCartItemQuantityFailure;
           message := "Failed to fetch" |}
      = ApiErrorObject
          {| code := UpdateCartItemQuantityFailure; message := msg |}.
Proof.
  split; [reflexivity|].
  exact (proj1 (proj2 (proj2
           (cart_fetchers_reject_with_tagged_errors messageOf
              (λ q (_ : unit), q) (λ q (_ : unit), q) "stores-app"
              "https://shop.example" memoryClient (idleClient None)
              (withOutage (ErrorObject "Failed to fetch") emptyStore))))
           "line-1" 2 _ _ eq_refl).
Defined.

(** X17 on product P: choosing size M completes the selection. *)
Lemma choosing_scenario :
  let chosen := handleOptionChange "Size" sizeM (initialDetails productP) in
  includes_undefined (Object_values chosen.(selectedChoices)) = false
  ∧ chosen.(quantity) = 1
  ∧ chosen.(addToCartAttempted) = false.
Proof.
  apply (choosing_every_option_completes_selection [("Size", sizeM)]
           (initialDetails productP)); [|discriminate].
  intros name Hname. apply initial_selection_is_Some in Hname
    as (_ & o & Ho & Hname).
  cbn in Ho. apply list_elem_of_singleton in Ho as ->.
  injection Hname as <-. by left.
Defined.


(** X19 on a product whose only option has no name. *)
Lemma unnamed_option_scenario :
  getInitialSelectedChoices unnamedOptionProduct = ∅
  ∧ length
      (handleAddToCart memoryApi (λ _ _, None) (λ _ _, ∅)
         unnamedOptionProduct
         (initialDetails unnamedOptionProduct, shopRuntime)).2.(inflight)
    = 1%nat.
Proof.
  apply (unnamed_options_do_not_block memoryApi (λ _ _, None) (λ _ _, ∅)
           unnamedOptionProduct shopRuntime).
  intros o Ho. cbn in Ho. apply list_elem_of_singleton in Ho as ->.
  by left.
Defined.

(** X20: a click on the second header of a fresh accordion. *)
Lemma accordion_scenario :
  let rows := renderAccordion twoSections (clickHeader 1 initialOpenItemIndex) in
  row_expanded <$> rows = [false; true]
  ∧ ∀ row, rows !! 1%nat = Some row → row.(row_icon) = MinusIcon.
Proof.
  intros rows. split; [reflexivity|]. intros row Hrow.
  destruct (accordion_click_opens_one_item twoSections initialOpenItemIndex
              1 1 row Hrow) as (Hexpanded & Hicon & _).
  rewrite Hicon, Hexpanded. reflexivity.
Defined.

(** X21 on the store of the price scenario, second page of size one. *)
Lemma category_query_scenario :
  recordingApi.(getProductsByCategory) "sale"
    {| skip := Some 1; limit := Some 1; filters := None; sortBy := None |}
    (saleStore, [])
  = (Resolved
       (SuccessResponse
          {| page_items := [pricedProduct "b" "c-sale" 25%Q];
             page_totalCount := 3 |}),
     (saleStore,
      [PGetCollectionBySlug "sale";
       PFind [HasSome "collectionIds" [Some "c-sale"]; Skip 1; Limit 1]])).
Proof.
  exact (products_by_category_query messageOf (λ q (_ : unit), q)
           (λ q (_ : unit), q) "stores-app" "https://shop.example"
           memoryClient "sale"
           {| skip := Some 1; limit := Some 1; filters := None;
              sortBy := None |}
           saleStore []
           {| collections._id := Some "c-sale"; collections.slug := "sale" |}
           (runQuery saleStore
              [HasSome "collectionIds" [Some "c-sale"]; Skip 1; Limit 1])
           saleStore saleStore eq_refl eq_refl).
Defined.
